(** * EasyBallistics: trajectory prediction of [UEBBarrel]

    A shallow embedding of [Private/Predict.cpp] (with the properties of
    [Public/EBBarrel.h] it reads) and the verification of its hit
    prediction.

    Conventions of the embedding.
    - C++ [float] and the components of [FVector] are exact rationals
      ([Q]); rounding is not modelled.  Equality of computed numbers is
      therefore [Qeq] ([==]) and equality of computed vectors is [veq].
    - The reference parameters of [PredictHitFromLocation] ([Hit],
      [HitResult], [HitLocation], [HitTime], [HitActor], [Trajectory]) are
      one record, [Outputs], passed in with the caller's values and
      returned with the values the call leaves in them.
    - What the call does to the outside (the log line, the calls of the
      bullet's [UpdateVelocity], the line traces) is recorded, in order,
      as a list of [Event]s.
    - The [while] loop is a function of a fuel counter that bounds the
      number of iterations: [None] means the loop was still running when
      the fuel ran out.
    - The engine functions the code calls ([GetSafeNormal], the world's
      [LineTraceSingleByChannel], the physics state of the attach parent)
      and the bullet's [UpdateVelocity] are parameters. *)

From Stdlib Require Import String.
From Stdlib Require Import QArith Qround ZArith List Bool Lia Lqa Setoid Morphisms.
Import ListNotations.

Local Open Scope Q_scope.

(** ** Numbers and vectors *)

(** [a < b] on [float], as a test. *)
Definition Qltb (a b : Q) : bool := negb (Qle_bool b a).

Record FVector : Type := MkVector { X : Q; Y : Q; Z : Q }.

Definition ZeroVector : FVector := MkVector 0 0 0.

(** [FVector::operator+], [operator-], [operator*(float)] and
    [operator*(float, FVector)]. *)
Definition vadd (a b : FVector) : FVector :=
  MkVector (X a + X b) (Y a + Y b) (Z a + Z b).
Definition vsub (a b : FVector) : FVector :=
  MkVector (X a - X b) (Y a - Y b) (Z a - Z b).
Definition vscale (a : FVector) (k : Q) : FVector :=
  MkVector (X a * k) (Y a * k) (Z a * k).
Definition scalev (k : Q) (a : FVector) : FVector :=
  MkVector (k * X a) (k * Y a) (k * Z a).

Declare Scope vec_scope.
Delimit Scope vec_scope with vec.
Bind Scope vec_scope with FVector.
Infix "+" := vadd : vec_scope.
Infix "-" := vsub : vec_scope.
Infix "*" := vscale : vec_scope.

(** Equality of vectors up to the value of their components. *)
Definition veq (a b : FVector) : Prop :=
  X a == X b /\ Y a == Y b /\ Z a == Z b.
Infix "=v=" := veq (at level 70, no associativity).

(** [FMath::Lerp(A, B, Alpha)] is [A + Alpha * (B - A)], on floats and on
    vectors. *)
Definition Lerp (A B Alpha : Q) : Q := A + Alpha * (B - A).
Definition LerpV (A B : FVector) (Alpha : Q) : FVector :=
  (A + scalev Alpha (B - A))%vec.

(** The engine's vector normalisation, [FVector::GetSafeNormal]. *)
Class EngineMath : Type := { GetSafeNormal : FVector -> FVector }.

(** ** Engine objects *)

(** An actor is known by its address. *)
Definition AActor : Type := nat.
Definition ECollisionChannel : Type := nat.

Module FHitResult.
Record t : Type := Make {
  bBlockingHit : bool;
  Time : Q;                  (* fraction of the segment at the hit, 0..1 *)
  Location : FVector;
  Actor : option AActor      (* what GetActor() returns; None is nullptr *)
}.
Definition GetActor (h : t) : option AActor := Actor h.
Definition Default : t := Make false 1 ZeroVector None.
End FHitResult.

Record FCollisionQueryParams : Type := MkQueryParams {
  bTraceComplex : bool;
  bReturnPhysicalMaterial : bool;
  IgnoredActorList : list AActor
}.

(** [AddIgnoredActor] of a null actor adds nothing. *)
Definition AddIgnoredActor (a : option AActor) (p : FCollisionQueryParams)
  : FCollisionQueryParams :=
  match a with
  | Some x => MkQueryParams (bTraceComplex p) (bReturnPhysicalMaterial p)
                            (IgnoredActorList p ++ [x])
  | None => p
  end.

Definition AddIgnoredActors (l : list AActor) (p : FCollisionQueryParams)
  : FCollisionQueryParams :=
  MkQueryParams (bTraceComplex p) (bReturnPhysicalMaterial p)
                (IgnoredActorList p ++ l).

(** The world is its collision query: the returned flag and the hit result
    it writes.  A function, so the world is static during a call. *)
Record UWorld : Type := MkWorld {
  LineTraceSingleByChannel :
    FVector -> FVector -> ECollisionChannel -> FCollisionQueryParams ->
    bool * FHitResult.t
}.

(** The members of [AEBBullet] (EBBullet.h) that the prediction reads. *)
Record AEBBullet : Type := MkBullet {
  MuzzleVelocityMin : Q;
  MuzzleVelocityMax : Q;
  UpdateVelocity : UWorld -> FVector -> FVector -> Q -> FVector;
  TraceComplex : bool;
  SafeLaunch : bool;
  TraceChannel : ECollisionChannel
}.

(** [TSubclassOf<AEBBullet>]: whether the class object is valid, and its
    default object. *)
Record TSubclassOf : Type := MkClass {
  IsValidLowLevel : bool;
  GetDefaultObject : AEBBullet
}.

(** The attach parent of the barrel.  [Cast<UPrimitiveComponent>] succeeds
    on a primitive component only. *)
Inductive USceneComponent : Type :=
| PrimitiveComponent (IsSimulatingPhysics : bool)
                     (GetPhysicsLinearVelocityAtPoint : FVector -> FVector)
| OtherSceneComponent.

(** The state of the barrel that the prediction reads. *)
Record UEBBarrel : Type := MkBarrel {
  InheritVelocity : Q;
  AdditionalVelocity : FVector;
  MuzzleVelocityMultiplierMin : Q;
  MuzzleVelocityMultiplierMax : Q;
  GetAttachParent : option USceneComponent;
  GetOwner : option AActor;
  GetWorld : UWorld;
  GetComponentLocation : FVector;
  GetForwardVector : FVector       (* GetComponentQuat().GetForwardVector() *)
}.

(** ** Outputs, effects and the state of the loop *)

Record Outputs : Type := MkOutputs {
  Hit : bool;
  HitResult : FHitResult.t;
  HitLocation : FVector;
  HitTime : Q;
  HitActor : option AActor;
  Trajectory : list FVector
}.

Inductive Event : Type :=
| EvLog (msg : string)
| EvUpdateVelocity (Location Velocity : FVector) (DeltaTime : Q)
| EvLineTrace (Start End : FVector) (Channel : ECollisionChannel)
              (Params : FCollisionQueryParams).

(** The variables alive at the head of the [while] loop. *)
Record LoopState : Type := MkLoop {
  outs : Outputs;
  Time : Q;
  CurrentLocation : FVector;
  Velocity : FVector;
  effects : list Event
}.

(** What one run of the loop body does: fall through to the next test of
    the loop condition, or [return] from the function. *)
Inductive Flow : Type :=
| Continue (s : LoopState)
| Return (o : Outputs) (fx : list Event).

(** ** The code *)

Section Predict.

Context {engine : EngineMath}.

(** Lines 59-74, [UEBBarrel::PredictTrace]: the query parameters. *)
Definition PredictTraceParams (Barrel : UEBBarrel) (Bullet : AEBBullet)
  (IgnoredActors : list AActor) : FCollisionQueryParams :=
  let QueryParams := MkQueryParams (TraceComplex Bullet) true [] in
  let QueryParams :=
    if SafeLaunch Bullet then AddIgnoredActor (GetOwner Barrel) QueryParams
    else QueryParams in
  AddIgnoredActors IgnoredActors QueryParams.

Definition PredictTrace (Barrel : UEBBarrel) (World : UWorld)
  (Bullet : AEBBullet) (Start End : FVector) (IgnoredActors : list AActor)
  : bool * FHitResult.t :=
  LineTraceSingleByChannel World Start End (TraceChannel Bullet)
    (PredictTraceParams Barrel Bullet IgnoredActors).

(** Lines 23-33: the velocity the prediction starts from. *)
Definition InitialVelocity (Barrel : UEBBarrel) (Bullet : AEBBullet)
  (StartLocation AimDirection : FVector) : FVector :=
  let CurrentLocation := StartLocation in
  let Velocity :=
    (GetSafeNormal AimDirection
     * (Lerp (MuzzleVelocityMultiplierMin Barrel)
             (MuzzleVelocityMultiplierMax Barrel) (1 # 2)
        * Lerp (MuzzleVelocityMin Bullet) (MuzzleVelocityMax Bullet)
               (1 # 2))%Q)%vec in
  let Velocity := (Velocity + AdditionalVelocity Barrel)%vec in
  match GetAttachParent Barrel with
  | Some (PrimitiveComponent IsSimulatingPhysics
                             GetPhysicsLinearVelocityAtPoint) =>
      if IsSimulatingPhysics then
        (Velocity
         + GetPhysicsLinearVelocityAtPoint CurrentLocation
           * InheritVelocity Barrel)%vec
      else Velocity
  | _ => Velocity
  end.

Section Loop.

Variable Barrel : UEBBarrel.
Variable Bullet : AEBBullet.
Variable IgnoredActors : list AActor.
Variables MaxTime Step : Q.

(** Lines 36-50: the body of the loop. *)
Definition LoopBody (s : LoopState) : Flow :=
  let PreviousVelocity := Velocity s in
  let Velocity' :=
    UpdateVelocity Bullet (GetWorld Barrel) (CurrentLocation s)
                   (Velocity s) Step in
  let End :=
    (CurrentLocation s + LerpV PreviousVelocity Velocity' (1 # 2) * Step)%vec in
  let '(hit, result) :=
    PredictTrace Barrel (GetWorld Barrel) Bullet (CurrentLocation s) End
                 IgnoredActors in
  let fx :=
    effects s
    ++ [EvUpdateVelocity (CurrentLocation s) (Velocity s) Step;
        EvLineTrace (CurrentLocation s) End (TraceChannel Bullet)
                    (PredictTraceParams Barrel Bullet IgnoredActors)] in
  if hit then
    Return
      {| Hit := true;
         HitResult := result;
         HitLocation := FHitResult.Location result;
         HitTime := Time s + FHitResult.Time result * Step;
         HitActor := FHitResult.GetActor result;
         Trajectory := Trajectory (outs s) ++ [FHitResult.Location result] |}
      fx
  else
    Continue
      {| outs :=
           {| Hit := false;
              HitResult := result;
              HitLocation := HitLocation (outs s);
              HitTime := HitTime (outs s);
              HitActor := HitActor (outs s);
              Trajectory := Trajectory (outs s) ++ [CurrentLocation s] |};
         Time := Time s + Step;
         CurrentLocation :=
           (CurrentLocation s
            + LerpV PreviousVelocity Velocity' (1 # 2) * Step)%vec;
         Velocity := Velocity';
         effects := fx |}.

(** Lines 53-56: what follows the loop. *)
Definition AfterLoop (s : LoopState) : Outputs * list Event :=
  ({| Hit := false;
      HitResult := HitResult (outs s);
      HitLocation := CurrentLocation s;
      HitTime := MaxTime;
      HitActor := None;
      Trajectory := Trajectory (outs s) |},
   effects s).

(** Lines 35-56: [while (Time < MaxTime) { ... }] and what follows it.  The
    loop condition is tested before the fuel, so a loop that exits does so
    whatever fuel is left. *)
Fixpoint PredictLoop (fuel : nat) (s : LoopState)
  : option (Outputs * list Event) :=
  if Qltb (Time s) MaxTime then
    match fuel with
    | O => None
    | S fuel' =>
        match LoopBody s with
        | Return o fx => Some (o, fx)
        | Continue s' => PredictLoop fuel' s'
        end
    end
  else Some (AfterLoop s).

End Loop.

(** Lines 18-33: the state in which the loop is entered. *)
Definition LoopEntry (Barrel : UEBBarrel) (o : Outputs) (Bullet : AEBBullet)
  (StartLocation AimDirection : FVector) : LoopState :=
  {| outs :=
       {| Hit := Hit o;
          HitResult := HitResult o;
          HitLocation := HitLocation o;
          HitTime := HitTime o;
          HitActor := HitActor o;
          Trajectory := [] |};
     Time := 0;
     CurrentLocation := StartLocation;
     Velocity := InitialVelocity Barrel Bullet StartLocation AimDirection;
     effects := [] |}.

(** Lines 12-57, [UEBBarrel::PredictHitFromLocation].  [o] holds the
    caller's values of the reference parameters. *)
Definition PredictHitFromLocation (fuel : nat) (Barrel : UEBBarrel)
  (o : Outputs) (BulletClass : TSubclassOf)
  (StartLocation AimDirection : FVector) (IgnoredActors : list AActor)
  (MaxTime Step : Q) : option (Outputs * list Event) :=
  if negb (IsValidLowLevel BulletClass) then
    Some (o, [EvLog "PredictHit - invalid bullet class"%string])
  else
    let Bullet := GetDefaultObject BulletClass in
    PredictLoop Barrel Bullet IgnoredActors MaxTime Step fuel
      (LoopEntry Barrel o Bullet StartLocation AimDirection).

(** Lines 6-10, [UEBBarrel::PredictHit]. *)
Definition PredictHit (fuel : nat) (Barrel : UEBBarrel) (o : Outputs)
  (BulletClass : TSubclassOf) (IgnoredActors : list AActor)
  (MaxTime Step : Q) : option (Outputs * list Event) :=
  let StartLocation := GetComponentLocation Barrel in
  let AimDirection := GetForwardVector Barrel in
  PredictHitFromLocation fuel Barrel o BulletClass StartLocation AimDirection
    IgnoredActors MaxTime Step.

End Predict.

(** ** Executions of the loop *)

Section Executions.

Variable Barrel : UEBBarrel.
Variable Bullet : AEBBullet.
Variable IgnoredActors : list AActor.
Variables MaxTime Step : Q.

(** One iteration that does not return: the loop condition holds and the
    body falls through. *)
Inductive LoopStep : LoopState -> LoopState -> Prop :=
| loop_step (s s' : LoopState) :
    Qltb (Time s) MaxTime = true ->
    LoopBody Barrel Bullet IgnoredActors Step s = Continue s' ->
    LoopStep s s'.

(** [Steps n s s']: the loop started in [s] is at its head in [s'] after
    [n] iterations. *)
Inductive Steps : nat -> LoopState -> LoopState -> Prop :=
| steps_refl (s : LoopState) : Steps 0 s s
| steps_next (n : nat) (s s' s'' : LoopState) :
    LoopStep s s' -> Steps n s' s'' -> Steps (S n) s s''.

(** How the loop started in [s] ends with result [r] after [n] full
    iterations: by its condition, or by the [return] of iteration [n]. *)
Inductive Ends (s : LoopState) (n : nat) (r : Outputs * list Event) : Prop :=
| ends_condition (s' : LoopState) :
    Steps n s s' ->
    Qltb (Time s') MaxTime = false ->
    r = AfterLoop MaxTime s' ->
    Ends s n r
| ends_return (s' : LoopState) (o : Outputs) (fx : list Event) :
    Steps n s s' ->
    Qltb (Time s') MaxTime = true ->
    LoopBody Barrel Bullet IgnoredActors Step s' = Return o fx ->
    r = (o, fx) ->
    Ends s n r.

End Executions.

(** ** Reference definitions for the statements *)

(** One trapezoidal step of a point at [p] with velocity [v], for the
    velocity rule [upd]: the new velocity is [upd p v], the displacement is
    the mean of the two velocities times the step. *)
Definition FlightStep (upd : FVector -> FVector -> FVector) (Step : Q)
  (pv : FVector * FVector) : FVector * FVector :=
  let v' := upd (fst pv) (snd pv) in
  ((fst pv + LerpV (snd pv) v' (1 # 2) * Step)%vec, v').

(** Position and velocity after [k] steps. *)
Definition Flight (upd : FVector -> FVector -> FVector) (Step : Q)
  (k : nat) (start v0 : FVector) : FVector * FVector :=
  Nat.iter k (FlightStep upd Step) (start, v0).

(** The effects of a flight from [p] with velocity [v] follow the
    trapezoidal rule and lead to [last]: each step calls the velocity rule
    on the current position and velocity, queries the segment from the
    current position to the position advanced by the mean of the old and
    the new velocity times the step, and the next step starts at the end
    of that segment with the new velocity.  [last] is the end of the last
    segment (the start, when there is no step). *)
Inductive Trapezoid (upd : FVector -> FVector -> FVector) (Step : Q)
  : FVector -> FVector -> list Event -> FVector -> Prop :=
| trapezoid_end (p v : FVector) : Trapezoid upd Step p v [] p
| trapezoid_step (p v End : FVector) (c : ECollisionChannel)
    (q : FCollisionQueryParams) (rest : list Event) (last : FVector) :
    End =v= (p + scalev (1 # 2) (v + upd p v) * Step)%vec ->
    Trapezoid upd Step End (upd p v) rest last ->
    Trapezoid upd Step p v
      (EvUpdateVelocity p v Step :: EvLineTrace p End c q :: rest) last.

(** The number of a step as a [float]. *)
Definition ofNat (n : nat) : Q := inject_Z (Z.of_nat n).

(** The velocity the bullet takes over from the barrel's attach parent. *)
Definition InheritedVelocity (Barrel : UEBBarrel) (StartLocation : FVector)
  : FVector :=
  match GetAttachParent Barrel with
  | Some (PrimitiveComponent true vel) =>
      (vel StartLocation * InheritVelocity Barrel)%vec
  | _ => ZeroVector
  end.

(** The outputs as a caller sets them up before a first call. *)
Definition DefaultOutputs : Outputs :=
  MkOutputs false FHitResult.Default ZeroVector 0 None [].

(** The outcome and the trajectory of two results agree. *)
Definition SameOutcome (r1 r2 : Outputs) : Prop :=
  Hit r1 = Hit r2
  /\ HitLocation r1 = HitLocation r2
  /\ HitTime r1 = HitTime r2
  /\ HitActor r1 = HitActor r2
  /\ Trajectory r1 = Trajectory r2.

(** Two states of the loop that differ at most in the outputs the loop
    has not written yet. *)
Definition SameRun (s1 s2 : LoopState) : Prop :=
  Time s1 = Time s2
  /\ CurrentLocation s1 = CurrentLocation s2
  /\ Velocity s1 = Velocity s2
  /\ Trajectory (outs s1) = Trajectory (outs s2)
  /\ effects s1 = effects s2.

(** The world's collision query never reports a hit. *)
Definition NeverHits (W : UWorld) : Prop :=
  forall Start End c q, fst (LineTraceSingleByChannel W Start End c q) = false.


(** The kinds of effects, and the channel and parameters of a query. *)
Definition IsUpdate (e : Event) : bool :=
  match e with EvUpdateVelocity _ _ _ => true | _ => false end.

Definition IsTrace (e : Event) : bool :=
  match e with EvLineTrace _ _ _ _ => true | _ => false end.

(** Every line trace of [fx] is made on channel [c] with parameters [q]. *)
Definition TracesUse (c : ECollisionChannel) (q : FCollisionQueryParams)
  (fx : list Event) : Prop :=
  Forall (fun e =>
            match e with
            | EvLineTrace _ _ c' q' => c' = c /\ q' = q
            | _ => True
            end) fx.

(** The position at time [t] of a point that starts at [start] with
    velocity [v0] under the constant acceleration [g]. *)
Definition Parabola (start v0 g : FVector) (t : Q) : FVector :=
  (start + v0 * t + g * (t * t / 2))%vec.

(** ** Scenarios *)

Module Scenario.

(** A world without obstacles. *)
Definition EmptyWorld : UWorld :=
  MkWorld (fun _ _ _ _ => (false, FHitResult.Default)).

(** A world with one wall, the plane x = [w], owned by [actor], hit by
    segments that cross it in the direction of growing x. *)
Definition WallAtX (w : Q) (actor : AActor) : UWorld :=
  MkWorld (fun Start End _ _ =>
    if Qle_bool (X Start) w && Qle_bool w (X End) && Qltb (X Start) (X End)
    then
      let t := (w - X Start) / (X End - X Start) in
      (true,
       FHitResult.Make true t (Start + (End - Start) * t)%vec (Some actor))
    else (false, FHitResult.Default)).

(** A barrel with the default properties of EBBarrel.h, at the origin,
    pointing along x, without attach parent. *)
Definition DefaultBarrel (W : UWorld) : UEBBarrel :=
  {| InheritVelocity := 1;
     AdditionalVelocity := ZeroVector;
     MuzzleVelocityMultiplierMin := 1;
     MuzzleVelocityMultiplierMax := 1;
     GetAttachParent := None;
     GetOwner := None;
     GetWorld := W;
     GetComponentLocation := ZeroVector;
     GetForwardVector := MkVector 1 0 0 |}.

(** A barrel riding on a physics body that moves with velocity [carrier]. *)
Definition MountedBarrel (W : UWorld) (carrier : FVector) : UEBBarrel :=
  {| InheritVelocity := 1 # 2;
     AdditionalVelocity := MkVector 0 0 3;
     MuzzleVelocityMultiplierMin := 1;
     MuzzleVelocityMultiplierMax := 3;
     GetAttachParent := Some (PrimitiveComponent true (fun _ => carrier));
     GetOwner := Some 7%nat;
     GetWorld := W;
     GetComponentLocation := ZeroVector;
     GetForwardVector := MkVector 1 0 0 |}.

(** A bullet without drag: the velocity rule returns the velocity it is
    given.  Muzzle speed 100. *)
Definition DraglessBullet : AEBBullet :=
  {| MuzzleVelocityMin := 100;
     MuzzleVelocityMax := 100;
     UpdateVelocity := fun _ _ v _ => v;
     TraceComplex := false;
     SafeLaunch := true;
     TraceChannel := 0%nat |}.

(** A bullet under constant gravity along z (forward Euler on the
    velocity), muzzle speed between 80 and 120. *)
Definition FallingBullet : AEBBullet :=
  {| MuzzleVelocityMin := 80;
     MuzzleVelocityMax := 120;
     UpdateVelocity := fun _ _ v dt => (v + MkVector 0 0 (-10) * dt)%vec;
     TraceComplex := false;
     SafeLaunch := false;
     TraceChannel := 0%nat |}.

Definition ValidClass (b : AEBBullet) : TSubclassOf := MkClass true b.

(** A normalisation that is right on unit vectors and on the zero vector:
    it returns a vector of squared length 1 unchanged and the zero vector
    otherwise.  Enough for scenarios that aim along an axis. *)
Definition UnitOrZero (v : FVector) : FVector :=
  if Qeq_bool (X v * X v + Y v * Y v + Z v * Z v) 1 then v else ZeroVector.

Definition AxisEngine : EngineMath := {| GetSafeNormal := UnitOrZero |}.

(** The barrels and classes of the scenarios: a barrel in the open, a
    barrel facing a wall at x = 55 owned by actor 42, a barrel on a carrier
    that moves along y. *)
Definition OpenBarrel : UEBBarrel := DefaultBarrel EmptyWorld.
Definition WallBarrel : UEBBarrel := DefaultBarrel (WallAtX 55 42%nat).
Definition CarriedBarrel : UEBBarrel :=
  MountedBarrel EmptyWorld (MkVector 0 4 0).
Definition Dragless : TSubclassOf := ValidClass DraglessBullet.
Definition Falling : TSubclassOf := ValidClass FallingBullet.
Definition AimX : FVector := MkVector 1 0 0.

(** Outputs left over from an earlier call. *)
Definition StaleOutputs : Outputs :=
  MkOutputs true FHitResult.Default (MkVector 9 9 9) 7 (Some 3%nat)
            [MkVector 1 1 1].

End Scenario.

(** ** The attribute editor tool

    A shallow embedding of [Private/AttributeEditorTool.cpp], for the tool
    set up on exactly one target: [Setup] creates the property sets of the
    attribute actions only then, so [Targets] is the one target
    [Targets[0]] and the loops over [Targets] make one iteration.

    - Names ([FName]) and strings ([FString]) are the engine's, with the
      engine's comparisons; the strings that [FString::Printf] builds and
      the order of [TArray::Sort] are the engine's too.
    - An attribute set ([FAttributesSetBase]) is the engine's map from
      names to attribute arrays: [RegisterAttribute] puts an entry for the
      name, [UnregisterAttribute] removes the entry of the name,
      [HasAttribute] tells whether there is one.
    - What the tool does to the outside (messages, undo transactions,
      commits to the target, change records, notifications of the static
      mesh) is recorded, in order, as a list of [ToolEvent]s.
    - The five actions that edit normals and UV channels through
      [FStaticMeshOperations] ([ClearNormals], [ClearUVs], [AddUVSet],
      [DeleteSelectedUVSet], [DuplicateSelectedUVSet]) are parameters of
      [OnTick]. *)

Module AttributeEditor.

Definition int32 : Type := BinNums.Z.

Module ElementType.
Inductive t : Type :=
| Vertex | VertexInstance | Triangle | Polygon | Edge | PolygonGroup.
End ElementType.

Module AttribType.
Inductive t : Type :=
| Int32 | Boolean | Float | Vector2 | Vector3 | Vector4 | String | Unknown.
End AttribType.

(** The actions of [EAttributeEditorToolActions]; [Other] stands for any
    enumerator that the switch of [OnTick] has no case for. *)
Module Action.
Inductive t : Type :=
| NoAction | ClearNormals | ClearAllUVs | AddUVSet | DeleteSelectedUVSet
| DuplicateSelectedUVSet | AddAttribute | AddWeightMapLayer
| AddPolyGroupLayer | DeleteAttribute | EnableLightmapUVs
| DisableLightmapUVs | ResetLightmapUVChannels | Other.
End Action.

(** What the tool takes from the engine. *)
Class MeshEngine : Type := {
  FName : Type;
  FName_eq_dec : forall a b : FName, {a = b} + {a <> b};
  IsNone : FName -> bool;
  (* FSkeletalMeshAttributes::IsReservedAttributeName *)
  IsReservedAttributeName : FName -> bool;
  FString : Type;
  (* operator== of FString, as Contains and IndexOfByKey use it *)
  FStringEquals : FString -> FString -> bool;
  FStringEquals_refl : forall s, FStringEquals s s = true;
  (* a string after Reset() *)
  EmptyString : FString;
  (* FName(const FString&) and FName::ToString *)
  MakeName : FString -> FName;
  ToString : FName -> FString;
  (* FString::Printf(TEXT("UV%d"), k) *)
  UVLayerName : int32 -> FString;
  (* the display string of an attribute: its name, the entry of
     EnumStrings for its type, and the mark of auto-generated ones *)
  AttributeDisplayString : FName -> AttribType.t -> bool -> FString;
  (* TArray::Sort by FName::LexicalLess of the names *)
  SortByName : forall A : Type, (A -> FName) -> list A -> list A
}.

(** What the statements ask of the engine: sorting keeps the elements;
    the name made from the string of a name is that name; the strings of
    two different names are not equal. *)
Definition SortKeepsElements {engine : MeshEngine} : Prop :=
  forall (A : Type) (key : A -> FName) (l : list A) (x : A),
    In x (SortByName A key l) <-> In x l.

Definition NameOfItsString {engine : MeshEngine} : Prop :=
  forall n : FName, MakeName (ToString n) = n.

Definition StringsTellNamesApart {engine : MeshEngine} : Prop :=
  forall a b : FName, FStringEquals (ToString a) (ToString b) = true -> a = b.

Section Tool.

Context {engine : MeshEngine}.

(** *** Mesh attributes *)

Inductive EMeshAttributeFlag : Type :=
| Lerpable | AutoGenerated | OtherFlag (bit : nat).

(** [EMeshAttributeFlags]: the set of the flags that are set;
    [EMeshAttributeFlags::None] is the empty set. *)
Definition EMeshAttributeFlags : Type := list EMeshAttributeFlag.

(** The element type of an attribute array with its default value. *)
Inductive AttributeDefault : Type :=
| DefaultInt32 (v : int32)
| DefaultBool (v : bool)
| DefaultFloat (v : Q)
| DefaultVector2f (x y : Q)
| DefaultVector3f (x y z : Q)
| DefaultVector4f (x y z w : Q)
| DefaultName (v : FName)
| DefaultOther.

Record FAttributesSetEntry : Type := MkEntry {
  NumberOfChannels : int32;
  Default : AttributeDefault;
  Flags : EMeshAttributeFlags
}.

Definition FAttributesSetBase : Type := list (FName * FAttributesSetEntry).

Definition NameEq (a b : FName) : bool :=
  if FName_eq_dec a b then true else false.

Definition FindAttribute (s : FAttributesSetBase) (n : FName)
  : option FAttributesSetEntry :=
  option_map snd (find (fun e => NameEq (fst e) n) s).

Definition SetHasAttribute (s : FAttributesSetBase) (n : FName) : bool :=
  match FindAttribute s n with Some _ => true | None => false end.

Definition UnregisterAttribute (n : FName) (s : FAttributesSetBase)
  : FAttributesSetBase :=
  filter (fun e => negb (NameEq (fst e) n)) s.

Definition RegisterAttribute (n : FName) (e : FAttributesSetEntry)
  (s : FAttributesSetBase) : FAttributesSetBase :=
  UnregisterAttribute n s ++ [(n, e)].

Record FMeshDescription : Type := MkMesh {
  VertexAttributes : FAttributesSetBase;
  VertexInstanceAttributes : FAttributesSetBase;
  TriangleAttributes : FAttributesSetBase;
  PolygonAttributes : FAttributesSetBase;
  EdgeAttributes : FAttributesSetBase;
  PolygonGroupAttributes : FAttributesSetBase
}.

(** The number of channels of the texture coordinates of the vertex
    instances, [InstanceUVs.GetNumChannels()]. *)
Variable GetNumUVChannels : FMeshDescription -> int32.

(** *** The target and the tool *)

Record FMeshBuildSettings : Type := MkBuildSettings {
  bGenerateLightmapUVs : bool;
  SrcLightmapIndex : int32;
  DstLightmapIndex : int32
}.

(** The component of the target: a static mesh component, with the build
    settings of source model 0 of its static mesh when it has one, or
    another primitive component. *)
Inductive UPrimitiveComponent : Type :=
| StaticMeshComponent (GetStaticMesh : option FMeshBuildSettings)
| OtherComponent.

Record ToolTarget : Type := MkTarget {
  Mesh : FMeshDescription;
  Component : UPrimitiveComponent
}.

Record UVActionsProps : Type := MkUVActions {
  UVLayerNamesList : list FString;
  UVLayer : FString
}.

Record LightmapUVActionsProps : Type := MkLightmapActions {
  bGenerateLightmapUVsProp : bool;
  SourceUVIndex : int32;
  DestinationUVIndex : int32
}.

Record NewAttributeActionsProps : Type := MkNewAttribute {
  NewName : FString;
  ElementType : ElementType.t;
  DataType : AttribType.t
}.

Record ModifyAttributeActionsProps : Type := MkModifyAttribute {
  AttributeNamesList : list FString;
  Attribute : FString
}.

Record CopyAttributeActionsProps : Type := MkCopyAttribute {
  FromAttribute : list FString;
  ToAttribute : list FString
}.

Record AttribPropertiesProps : Type := MkAttribProperties {
  VertexAttributesProp : list FString;
  InstanceAttributesProp : list FString;
  TriangleAttributesProp : list FString;
  PolygonAttributesProp : list FString;
  EdgeAttributesProp : list FString;
  GroupAttributesProp : list FString
}.

Record Tool : Type := MkTool {
  Target : ToolTarget;
  bTargetIsStaticMesh : bool;
  PendingAction : Action.t;
  bAttributeListsValid : bool;
  bHaveAutoGeneratedLightmapUVSet : bool;
  UVActions : UVActionsProps;
  LightmapUVActions : option LightmapUVActionsProps;
  NewAttributeProps : NewAttributeActionsProps;
  ModifyAttributeProps : ModifyAttributeActionsProps;
  CopyAttributeProps : CopyAttributeActionsProps;
  AttributeProps : AttribPropertiesProps
}.

(** The property sets that the tool shows. *)
Inductive PropertySource : Type :=
| NormalsActionsSource | UVActionsSource | LightmapUVActionsSource
| NewAttributePropsSource | ModifyAttributePropsSource
| CopyAttributePropsSource | AttributePropsSource.

(** What the tool does to the outside.  [EvDisplayMessage] is a message
    of the level [UserWarning], [EvDisplayNotification] one of the level
    [UserNotification]. *)
Inductive ToolEvent : Type :=
| EvDisplayMessage (text : string)
| EvBeginUndoTransaction (text : string)
| EvEndUndoTransaction
| EvCommitMeshDescriptionUpdate (mesh : FMeshDescription)
| EvEmitObjectChange (text : string)
| EvModify
| EvPostEditChange
| EvDisplayNotification (text : string)
| EvAddToolPropertySource (source : PropertySource)
| EvSetToolPropertySourceEnabled (source : PropertySource) (enabled : bool)
| EvSetToolDisplayName (text : string).

(** Writing one member of the tool. *)
Definition withTarget (t : ToolTarget) (tool : Tool) : Tool :=
  MkTool t (bTargetIsStaticMesh tool) (PendingAction tool)
    (bAttributeListsValid tool) (bHaveAutoGeneratedLightmapUVSet tool)
    (UVActions tool) (LightmapUVActions tool) (NewAttributeProps tool)
    (ModifyAttributeProps tool) (CopyAttributeProps tool)
    (AttributeProps tool).

Definition withPendingAction (a : Action.t) (tool : Tool) : Tool :=
  MkTool (Target tool) (bTargetIsStaticMesh tool) a
    (bAttributeListsValid tool) (bHaveAutoGeneratedLightmapUVSet tool)
    (UVActions tool) (LightmapUVActions tool) (NewAttributeProps tool)
    (ModifyAttributeProps tool) (CopyAttributeProps tool)
    (AttributeProps tool).

Definition withAttributeListsValid (b : bool) (tool : Tool) : Tool :=
  MkTool (Target tool) (bTargetIsStaticMesh tool) (PendingAction tool) b
    (bHaveAutoGeneratedLightmapUVSet tool)
    (UVActions tool) (LightmapUVActions tool) (NewAttributeProps tool)
    (ModifyAttributeProps tool) (CopyAttributeProps tool)
    (AttributeProps tool).

Definition withMesh (m : FMeshDescription) (tool : Tool) : Tool :=
  withTarget (MkTarget m (Component (Target tool))) tool.

Definition withComponent (c : UPrimitiveComponent) (tool : Tool) : Tool :=
  withTarget (MkTarget (Mesh (Target tool)) c) tool.

(** *** The code *)

(** Lines 131-137. *)
Record FAttributeEditorAttribInfo : Type := MkAttribInfo {
  Name : FName;
  InfoElementType : ElementType.t;
  InfoDataType : AttribType.t;
  bIsAutoGenerated : bool
}.

(** [HasAttributeOfType<T>] in the order of lines 156-183. *)
Definition AttribTypeOf (e : FAttributesSetEntry) : AttribType.t :=
  match Default e with
  | DefaultInt32 _ => AttribType.Int32
  | DefaultFloat _ => AttribType.Float
  | DefaultBool _ => AttribType.Boolean
  | DefaultVector2f _ _ => AttribType.Vector2
  | DefaultVector3f _ _ _ => AttribType.Vector3
  | DefaultVector4f _ _ _ _ => AttribType.Vector4
  | DefaultName _ => AttribType.String
  | DefaultOther => AttribType.Unknown
  end.

Definition HasFlag (f : EMeshAttributeFlag) (fs : EMeshAttributeFlags)
  : bool :=
  existsb (fun g =>
             match f, g with
             | Lerpable, Lerpable => true
             | AutoGenerated, AutoGenerated => true
             | OtherFlag a, OtherFlag b => Nat.eqb a b
             | _, _ => false
             end) fs.

(** Lines 139-198, [ExtractAttribList]: the sorted list of the attributes
    of a set and their display strings. *)
Definition ExtractAttribList (AttribSet : FAttributesSetBase)
  (ElemType : ElementType.t)
  : list FAttributeEditorAttribInfo * list FString :=
  let AttribList :=
    map (fun e =>
           {| Name := fst e;
              InfoElementType := ElemType;
              InfoDataType := AttribTypeOf (snd e);
              bIsAutoGenerated := HasFlag AutoGenerated (Flags (snd e)) |})
        AttribSet in
  let AttribList := SortByName _ Name AttribList in
  (AttribList,
   map (fun AttribInfo =>
          AttributeDisplayString (Name AttribInfo) (InfoDataType AttribInfo)
                                 (bIsAutoGenerated AttribInfo))
       AttribList).

(** Lines 202-241, [GetAttributeSetByType]: the set, and the mesh with the
    set written through the returned pointer. *)
Definition GetAttributeSetByType (M : FMeshDescription)
  (ElemType : ElementType.t) : FAttributesSetBase :=
  match ElemType with
  | ElementType.Vertex => VertexAttributes M
  | ElementType.VertexInstance => VertexInstanceAttributes M
  | ElementType.Triangle => TriangleAttributes M
  | ElementType.Polygon => PolygonAttributes M
  | ElementType.Edge => EdgeAttributes M
  | ElementType.PolygonGroup => PolygonGroupAttributes M
  end.

Definition SetAttributeSetByType (M : FMeshDescription)
  (ElemType : ElementType.t) (s : FAttributesSetBase) : FMeshDescription :=
  match ElemType with
  | ElementType.Vertex =>
      MkMesh s (VertexInstanceAttributes M) (TriangleAttributes M)
             (PolygonAttributes M) (EdgeAttributes M)
             (PolygonGroupAttributes M)
  | ElementType.VertexInstance =>
      MkMesh (VertexAttributes M) s (TriangleAttributes M)
             (PolygonAttributes M) (EdgeAttributes M)
             (PolygonGroupAttributes M)
  | ElementType.Triangle =>
      MkMesh (VertexAttributes M) (VertexInstanceAttributes M) s
             (PolygonAttributes M) (EdgeAttributes M)
             (PolygonGroupAttributes M)
  | ElementType.Polygon =>
      MkMesh (VertexAttributes M) (VertexInstanceAttributes M)
             (TriangleAttributes M) s (EdgeAttributes M)
             (PolygonGroupAttributes M)
  | ElementType.Edge =>
      MkMesh (VertexAttributes M) (VertexInstanceAttributes M)
             (TriangleAttributes M) (PolygonAttributes M) s
             (PolygonGroupAttributes M)
  | ElementType.PolygonGroup =>
      MkMesh (VertexAttributes M) (VertexInstanceAttributes M)
             (TriangleAttributes M) (PolygonAttributes M)
             (EdgeAttributes M) s
  end.

(** Lines 244-248. *)
Definition HasAttribute (M : FMeshDescription) (ElemType : ElementType.t)
  (AttributeName : FName) : bool :=
  SetHasAttribute (GetAttributeSetByType M ElemType) AttributeName.

(** Lines 250-278, [AddAttribute]: the returned flag and the mesh. *)
Definition AddAttribute (M : FMeshDescription) (ElemType : ElementType.t)
  (AttribType : AttribType.t) (AttributeName : FName)
  : bool * FMeshDescription :=
  let AttribSetBase := GetAttributeSetByType M ElemType in
  let register e :=
    (true,
     SetAttributeSetByType M ElemType
       (RegisterAttribute AttributeName e AttribSetBase)) in
  match AttribType with
  | AttribType.Int32 => register (MkEntry 1%Z (DefaultInt32 0%Z) [])
  | AttribType.Boolean => register (MkEntry 1%Z (DefaultBool false) [])
  | AttribType.Float => register (MkEntry 1%Z (DefaultFloat 0) [Lerpable])
  | AttribType.Vector2 =>
      register (MkEntry 1%Z (DefaultVector2f 0 0) [Lerpable])
  | AttribType.Vector3 =>
      register (MkEntry 1%Z (DefaultVector3f 0 0 0) [Lerpable])
  | AttribType.Vector4 =>
      register (MkEntry 1%Z (DefaultVector4f 0 0 0 1) [Lerpable])
  | AttribType.String | AttribType.Unknown => (false, M)
  end.

(** Lines 282-291, [RemoveAttribute]. *)
Definition RemoveAttribute (M : FMeshDescription)
  (ElemType : ElementType.t) (AttributeName : FName)
  : bool * FMeshDescription :=
  let AttribSetBase := GetAttributeSetByType M ElemType in
  (true,
   SetAttributeSetByType M ElemType
     (UnregisterAttribute AttributeName AttribSetBase)).

Definition Contains (l : list FString) (s : FString) : bool :=
  existsb (fun x => FStringEquals x s) l.

(** Lines 295-374, [InitializeAttributeLists].  [None]: the call does not
    return (an index out of the bounds of an array, a null pointer). *)
Definition InitializeAttributeLists (tool : Tool) : option Tool :=
  let M := Mesh (Target tool) in
  let NumChannels := GetNumUVChannels M in
  let Names :=
    map (fun k => UVLayerName (Z.of_nat k)) (seq 0 (Z.to_nat NumChannels)) in
  match Names with
  | [] => None                              (* UVLayerNamesList[0] *)
  | First :: _ =>
      let uv := MkUVActions Names First in
      let lightmap :=
        if bTargetIsStaticMesh tool then
          match LightmapUVActions tool with
          | Some actions =>
              match Component (Target tool) with
              | StaticMeshComponent (Some BuildSettings) =>
                  Some
                    (Some (MkLightmapActions
                             (bGenerateLightmapUVs BuildSettings)
                             (SrcLightmapIndex BuildSettings)
                             (DstLightmapIndex BuildSettings)),
                     (NumChannels <=? DstLightmapIndex BuildSettings)%Z)
              | StaticMeshComponent None =>
                  Some (Some actions, bHaveAutoGeneratedLightmapUVSet tool)
              | OtherComponent => None      (* the cast gives nullptr *)
              end
          | None => Some (None, bHaveAutoGeneratedLightmapUVSet tool)
          end
        else
          Some (LightmapUVActions tool, bHaveAutoGeneratedLightmapUVSet tool)
      in
      match lightmap with
      | None => None
      | Some (lightmapActions, haveAutoGenerated) =>
          let '(VertexAttribs, VertexStrings) :=
            ExtractAttribList (VertexAttributes M) ElementType.Vertex in
          let '(_, InstanceStrings) :=
            ExtractAttribList (VertexInstanceAttributes M)
                              ElementType.VertexInstance in
          let '(TriangleAttribs, TriangleStrings) :=
            ExtractAttribList (TriangleAttributes M) ElementType.Triangle in
          let '(PolygonAttribs, PolygonStrings) :=
            ExtractAttribList (PolygonAttributes M) ElementType.Polygon in
          let '(_, EdgeStrings) :=
            ExtractAttribList (EdgeAttributes M) ElementType.Edge in
          let '(_, GroupStrings) :=
            ExtractAttribList (PolygonGroupAttributes M)
                              ElementType.PolygonGroup in
          let OldAttributeNames :=
            AttributeNamesList (ModifyAttributeProps tool) in
          let NewAttributeNames :=
            map (fun AttribInfo => ToString (Name AttribInfo))
                (filter (fun AttribInfo =>
                           negb (IsReservedAttributeName (Name AttribInfo)))
                        (VertexAttribs ++ PolygonAttribs ++ TriangleAttribs))
          in
          let Selected :=
            if Contains NewAttributeNames
                        (Attribute (ModifyAttributeProps tool))
            then Attribute (ModifyAttributeProps tool)
            else EmptyString in
          let Selected :=
            match find (fun AttributeName =>
                          negb (Contains OldAttributeNames AttributeName))
                       NewAttributeNames with
            | Some AttributeName => AttributeName
            | None => Selected
            end in
          Some
            {| Target := Target tool;
               bTargetIsStaticMesh := bTargetIsStaticMesh tool;
               PendingAction := PendingAction tool;
               bAttributeListsValid := true;
               bHaveAutoGeneratedLightmapUVSet := haveAutoGenerated;
               UVActions := uv;
               LightmapUVActions := lightmapActions;
               NewAttributeProps := NewAttributeProps tool;
               ModifyAttributeProps :=
                 MkModifyAttribute NewAttributeNames Selected;
               CopyAttributeProps := MkCopyAttribute [] [];
               AttributeProps :=
                 MkAttribProperties VertexStrings InstanceStrings
                   TriangleStrings PolygonStrings EdgeStrings GroupStrings |}
      end
  end.

(** Lines 383-389, [RequestAction]. *)
Definition RequestAction (ActionType : Action.t) (tool : Tool) : Tool :=
  match PendingAction tool with
  | Action.NoAction => withPendingAction ActionType tool
  | _ => tool
  end.

(** Lines 842-846, [EmitAttributesChange]. *)
Definition EmitAttributesChange : ToolEvent :=
  EvEmitObjectChange "Attributes Change".

(** Lines 848-859, [FAttributeEditor_AttributeListsChange::Apply] and
    [Revert]. *)
Definition ListsChangeApply (tool : Tool) : Tool :=
  withAttributeListsValid false tool.

Definition ListsChangeRevert (tool : Tool) : Tool :=
  withAttributeListsValid false tool.

(** Lines 648-678, [AddNewAttribute] with three arguments. *)
Definition AddNewAttribute (ElemType : ElementType.t)
  (DataType : AttribType.t) (AttributeName : FName) (tool : Tool)
  : Tool * list ToolEvent :=
  if IsNone AttributeName then
    (tool, [EvDisplayMessage "Invalid attribute name"])
  else
    let CurMesh := Mesh (Target tool) in
    if HasAttribute CurMesh ElemType AttributeName then
      (tool, [EvDisplayMessage "Attribute with this name already exists"])
    else
      let '(added, NewMesh) :=
        AddAttribute CurMesh ElemType DataType AttributeName in
      if negb added then
        (tool, [EvDisplayMessage "Unknown error adding new Attribute"])
      else
        (withAttributeListsValid false (withMesh NewMesh tool),
         [EvBeginUndoTransaction "Add Attribute";
          EvCommitMeshDescriptionUpdate NewMesh;
          EmitAttributesChange;
          EvEndUndoTransaction]).

(** Lines 681-690, [AddNewAttribute] without arguments. *)
Definition AddNewAttributeFromProps (tool : Tool) : Tool * list ToolEvent :=
  match DataType (NewAttributeProps tool) with
  | AttribType.Unknown =>
      (tool, [EvDisplayMessage "Currently cannot add this attribute type"])
  | _ =>
      AddNewAttribute (ElementType (NewAttributeProps tool))
        (DataType (NewAttributeProps tool))
        (MakeName (NewName (NewAttributeProps tool))) tool
  end.

(** Lines 692-700. *)
Definition AddNewWeightMap (tool : Tool) : Tool * list ToolEvent :=
  AddNewAttribute ElementType.Vertex AttribType.Float
    (MakeName (NewName (NewAttributeProps tool))) tool.

Definition AddNewGroupsLayer (tool : Tool) : Tool * list ToolEvent :=
  AddNewAttribute ElementType.Triangle AttribType.Int32
    (MakeName (NewName (NewAttributeProps tool))) tool.

(** Lines 707-759, [DeleteAttribute]. *)
Definition DeleteAttribute (tool : Tool) : Tool * list ToolEvent :=
  let CurMesh := Mesh (Target tool) in
  let SelectedName := MakeName (Attribute (ModifyAttributeProps tool)) in
  if IsReservedAttributeName SelectedName then
    (tool, [EvDisplayMessage "Cannot delete reserved mesh Attributes"])
  else
    let '(bIsDeletableAttribute, ElemType) :=
      if HasAttribute CurMesh ElementType.Vertex SelectedName then
        (true, ElementType.Vertex)
      else if HasAttribute CurMesh ElementType.PolygonGroup SelectedName then
        (true, ElementType.Polygon)
      else if HasAttribute CurMesh ElementType.Triangle SelectedName then
        (true, ElementType.Triangle)
      else (false, ElementType.Vertex) in
    if negb bIsDeletableAttribute then
      (tool, [EvDisplayMessage "Cannot delete the selected attribute"])
    else
      let '(removed, NewMesh) :=
        RemoveAttribute CurMesh ElemType SelectedName in
      if negb removed then
        (tool, [EvDisplayMessage "Unknown error removing Attribute"])
      else
        (withAttributeListsValid false (withMesh NewMesh tool),
         [EvBeginUndoTransaction "Remove Attribute";
          EvCommitMeshDescriptionUpdate NewMesh;
          EmitAttributesChange;
          EvEndUndoTransaction]).

(** Lines 763-793, [SetLightmapUVsEnabled]. *)
Definition SetLightmapUVsEnabled (bEnabled : bool) (tool : Tool)
  : Tool * list ToolEvent :=
  let begin :=
    EvBeginUndoTransaction
      (if bEnabled then "Enable Lightmap UVs" else "Disable Lightmap UVs") in
  let '(component, edits) :=
    match Component (Target tool) with
    | StaticMeshComponent (Some BuildSettings) =>
        (StaticMeshComponent
           (Some (MkBuildSettings bEnabled
                    (SrcLightmapIndex BuildSettings)
                    (DstLightmapIndex BuildSettings))),
         [EvModify; EvPostEditChange])
    | c => (c, [])
    end in
  (withAttributeListsValid false (withComponent component tool),
   begin :: edits ++ [EmitAttributesChange; EvEndUndoTransaction]).

(** Lines 797-825, [ResetLightmapUVsChannels]. *)
Definition ResetLightmapUVsChannels (tool : Tool) : Tool * list ToolEvent :=
  let SetChannel := Z.max (GetNumUVChannels (Mesh (Target tool))) 1%Z in
  let '(component, edits) :=
    match Component (Target tool) with
    | StaticMeshComponent (Some BuildSettings) =>
        (StaticMeshComponent
           (Some (MkBuildSettings (bGenerateLightmapUVs BuildSettings)
                    0%Z SetChannel)),
         [EvModify; EvPostEditChange])
    | c => (c, [])
    end in
  (withAttributeListsValid false (withComponent component tool),
   EvBeginUndoTransaction "Reset Lightmap UVs"
   :: edits ++ [EmitAttributesChange; EvEndUndoTransaction]).

(** Lines 829-840, [UpdateAutoGeneratedLightmapUVChannel]. *)
Definition UpdateAutoGeneratedLightmapUVChannel
  (TargetComponent : UPrimitiveComponent) (NewMaxUVChannels : int32)
  : UPrimitiveComponent * list ToolEvent :=
  match TargetComponent with
  | StaticMeshComponent (Some BuildSettings) =>
      (StaticMeshComponent
         (Some (MkBuildSettings (bGenerateLightmapUVs BuildSettings)
                  (SrcLightmapIndex BuildSettings) NewMaxUVChannels)),
       [EvModify])
  | c => (c, [])
  end.

(** The property sets that [Setup] creates with [NewObject]. *)
Record PropertySets : Type := MkPropertySets {
  CreatedUVActions : UVActionsProps;
  CreatedLightmapUVActions : LightmapUVActionsProps;
  CreatedNewAttributeProps : NewAttributeActionsProps;
  CreatedModifyAttributeProps : ModifyAttributeActionsProps;
  CreatedCopyAttributeProps : CopyAttributeActionsProps;
  CreatedAttributeProps : AttribPropertiesProps
}.

(** Lines 80-128, [Setup], on one target: [tool] is the tool as it was
    constructed and given its target, [created] are the new property
    sets.  [None]: the call does not return. *)
Definition Setup (created : PropertySets) (tool : Tool)
  : option (Tool * list ToolEvent) :=
  let TargetComponent := Component (Target tool) in
  let bStatic :=
    match TargetComponent with
    | StaticMeshComponent _ => true
    | OtherComponent => false
    end in
  let tool :=
    {| Target := Target tool;
       bTargetIsStaticMesh := bStatic;
       PendingAction := PendingAction tool;
       bAttributeListsValid := bAttributeListsValid tool;
       bHaveAutoGeneratedLightmapUVSet :=
         bHaveAutoGeneratedLightmapUVSet tool;
       UVActions := CreatedUVActions created;
       LightmapUVActions :=
         if bStatic then Some (CreatedLightmapUVActions created)
         else LightmapUVActions tool;
       NewAttributeProps := CreatedNewAttributeProps created;
       ModifyAttributeProps := CreatedModifyAttributeProps created;
       CopyAttributeProps := CreatedCopyAttributeProps created;
       AttributeProps := CreatedAttributeProps created |} in
  match InitializeAttributeLists tool with
  | None => None
  | Some tool =>
      Some (tool,
            [EvAddToolPropertySource NormalsActionsSource;
             EvAddToolPropertySource UVActionsSource]
            ++ (if bStatic
                then [EvAddToolPropertySource LightmapUVActionsSource]
                else [])
            ++ [EvAddToolPropertySource NewAttributePropsSource;
                EvAddToolPropertySource ModifyAttributePropsSource;
                EvAddToolPropertySource CopyAttributePropsSource;
                EvSetToolPropertySourceEnabled CopyAttributePropsSource
                                               false;
                EvAddToolPropertySource AttributePropsSource;
                EvSetToolDisplayName "Edit Attributes";
                EvDisplayNotification
                  "Inspect and Modify Attributes of a StaticMesh Asset"])
  end.

(** The actions on normals and UV channels. *)
Variables ClearNormals ClearUVs AddUVSet DeleteSelectedUVSet
          DuplicateSelectedUVSet : Tool -> option (Tool * list ToolEvent).

(** Lines 392-440, [OnTick]. *)
Definition OnTick (tool : Tool) : option (Tool * list ToolEvent) :=
  let done :=
    match PendingAction tool with
    | Action.ClearNormals => ClearNormals tool
    | Action.ClearAllUVs => ClearUVs tool
    | Action.AddUVSet => AddUVSet tool
    | Action.DeleteSelectedUVSet => DeleteSelectedUVSet tool
    | Action.DuplicateSelectedUVSet => DuplicateSelectedUVSet tool
    | Action.AddAttribute => Some (AddNewAttributeFromProps tool)
    | Action.AddWeightMapLayer => Some (AddNewWeightMap tool)
    | Action.AddPolyGroupLayer => Some (AddNewGroupsLayer tool)
    | Action.DeleteAttribute => Some (DeleteAttribute tool)
    | Action.EnableLightmapUVs => Some (SetLightmapUVsEnabled true tool)
    | Action.DisableLightmapUVs => Some (SetLightmapUVsEnabled false tool)
    | Action.ResetLightmapUVChannels => Some (ResetLightmapUVsChannels tool)
    | Action.NoAction | Action.Other => Some (tool, [])
    end in
  match done with
  | None => None
  | Some (tool, fx) =>
      let tool := withPendingAction Action.NoAction tool in
      if negb (bAttributeListsValid tool) then
        match InitializeAttributeLists tool with
        | Some tool => Some (tool, fx)
        | None => None
        end
      else Some (tool, fx)
  end.

(** One use of the tool: the user sets the properties of the new
    attribute and the selected attribute and asks for an action, which
    [RequestAction] takes, and the tool ticks. *)
Record Use : Type := MkUse {
  UseNewAttribute : NewAttributeActionsProps;
  UseAttribute : FString;
  UseAction : Action.t
}.

Definition UseTool (u : Use) (tool : Tool)
  : option (Tool * list ToolEvent) :=
  let tool :=
    MkTool (Target tool) (bTargetIsStaticMesh tool) (PendingAction tool)
      (bAttributeListsValid tool) (bHaveAutoGeneratedLightmapUVSet tool)
      (UVActions tool) (LightmapUVActions tool) (UseNewAttribute u)
      (MkModifyAttribute (AttributeNamesList (ModifyAttributeProps tool))
                         (UseAttribute u))
      (CopyAttributeProps tool) (AttributeProps tool) in
  OnTick (RequestAction (UseAction u) tool).

(** The uses of a session one after the other, with the effects of all
    of them; [None] when one of them does not return. *)
Fixpoint Session (uses : list Use) (tool : Tool)
  : option (Tool * list ToolEvent) :=
  match uses with
  | [] => Some (tool, [])
  | u :: rest =>
      match UseTool u tool with
      | None => None
      | Some (tool, fx) =>
          match Session rest tool with
          | None => None
          | Some (tool', fx') => Some (tool', fx ++ fx')
          end
      end
  end.

End Tool.

(** *** Reference definitions for the statements *)

Section Statements.

Context {engine : MeshEngine}.

(** The entry of an attribute of a mesh, by element type and name. *)
Definition Lookup (M : FMeshDescription) (ElemType : ElementType.t)
  (n : FName) : option FAttributesSetEntry :=
  FindAttribute (GetAttributeSetByType M ElemType) n.

(** Two meshes have the same attributes. *)
Definition SameAttributes (M1 M2 : FMeshDescription) : Prop :=
  forall ElemType n, Lookup M1 ElemType n = Lookup M2 ElemType n.

(** The effects of an action that changes something: one undo
    transaction, opened first and closed last, with the commits and the
    notifications inside and the change record before the end. *)
Definition IsEdit (e : ToolEvent) : Prop :=
  match e with
  | EvCommitMeshDescriptionUpdate _ | EvModify | EvPostEditChange => True
  | _ => False
  end.

Definition Transaction (fx : list ToolEvent) : Prop :=
  exists text edits,
    fx = EvBeginUndoTransaction text
         :: edits ++ [EmitAttributesChange; EvEndUndoTransaction]
    /\ Forall IsEdit edits.

(** The names that [InitializeAttributeLists] offers for modification:
    the attributes of the vertices, the polygons and the triangles that
    are not reserved, each set in sorted order. *)
Definition ListedNames (M : FMeshDescription) : list FString :=
  map (fun AttribInfo => ToString (Name AttribInfo))
      (filter (fun AttribInfo =>
                 negb (IsReservedAttributeName (Name AttribInfo)))
              (fst (ExtractAttribList (VertexAttributes M)
                                      ElementType.Vertex)
               ++ fst (ExtractAttribList (PolygonAttributes M)
                                         ElementType.Polygon)
               ++ fst (ExtractAttribList (TriangleAttributes M)
                                         ElementType.Triangle))).

(** The flags that [AddAttribute] registers an attribute of a type
    with. *)
Definition RegisteredFlags (T : AttribType.t) : EMeshAttributeFlags :=
  match T with
  | AttribType.Float | AttribType.Vector2 | AttribType.Vector3
  | AttribType.Vector4 => [Lerpable]
  | _ => []
  end.

(** The result of an action that went through: the tool with the new
    mesh committed to its target and its lists marked invalid, in one
    undo transaction. *)
Definition Committed (text : string) (NewMesh : FMeshDescription)
  (tool : Tool) : Tool * list ToolEvent :=
  (withAttributeListsValid false (withMesh NewMesh tool),
   [EvBeginUndoTransaction text;
    EvCommitMeshDescriptionUpdate NewMesh;
    EmitAttributesChange;
    EvEndUndoTransaction]).

(** The selection that [InitializeAttributeLists] leaves: the first name
    offered that was not offered before; without one, the selected name
    when it is still offered, and the empty string otherwise. *)
Definition SelectionAfter (tool : Tool) : FString :=
  let names := ListedNames (Mesh (Target tool)) in
  match find (fun s =>
                negb (Contains (AttributeNamesList (ModifyAttributeProps tool))
                               s))
             names with
  | Some s => s
  | None =>
      if Contains names (Attribute (ModifyAttributeProps tool))
      then Attribute (ModifyAttributeProps tool)
      else EmptyString
  end.

(** The lightmap step of [InitializeAttributeLists] cannot be made: the
    tool takes its target for a static mesh and has the lightmap property
    set, but the component of the target is not a static mesh component. *)
Definition LightmapStepFails (tool : Tool) : Prop :=
  bTargetIsStaticMesh tool = true
  /\ LightmapUVActions tool <> None
  /\ Component (Target tool) = OtherComponent.

(** The flag [bTargetIsStaticMesh] agrees with the component of the
    target. *)
Definition Consistent (tool : Tool) : Prop :=
  bTargetIsStaticMesh tool = true ->
  Component (Target tool) <> OtherComponent.

(** The uses that edit attributes or lightmap settings and leave the
    attributes of the vertex instances alone. *)
Definition KeepsInstanceAttributes (u : Use) : Prop :=
  match UseAction u with
  | Action.NoAction | Action.Other | Action.AddWeightMapLayer
  | Action.AddPolyGroupLayer | Action.DeleteAttribute
  | Action.EnableLightmapUVs | Action.DisableLightmapUVs
  | Action.ResetLightmapUVChannels => True
  | Action.AddAttribute =>
      ElementType (UseNewAttribute u) <> ElementType.VertexInstance
  | _ => False
  end.

(** The tool [t] has the static mesh flag of [tool], a component of the
    same kind and the same attributes of the vertex instances. *)
Definition SameSetting (tool t : Tool) : Prop :=
  bTargetIsStaticMesh t = bTargetIsStaticMesh tool
  /\ (Component (Target t) = OtherComponent
      <-> Component (Target tool) = OtherComponent)
  /\ VertexInstanceAttributes (Mesh (Target t))
     = VertexInstanceAttributes (Mesh (Target tool)).

Definition withAttribute (s : FString) (tool : Tool) : Tool :=
  MkTool (Target tool) (bTargetIsStaticMesh tool) (PendingAction tool)
    (bAttributeListsValid tool) (bHaveAutoGeneratedLightmapUVSet tool)
    (UVActions tool) (LightmapUVActions tool) (NewAttributeProps tool)
    (MkModifyAttribute (AttributeNamesList (ModifyAttributeProps tool)) s)
    (CopyAttributeProps tool) (AttributeProps tool).

End Statements.

End AttributeEditor.

(** *** Scenarios of the attribute editor *)

Module EditorScenario.

Import AttributeEditor.
Local Open Scope string_scope.

(** The lexical order of strings, by the codes of their characters,
    compared from the highest bit. *)
Fixpoint BitsLeb (l m : list bool) : bool :=
  match l, m with
  | x :: l', y :: m' => if Bool.eqb x y then BitsLeb l' m' else y
  | _, _ => true
  end.

Definition AsciiBits (a : Ascii.ascii) : list bool :=
  let '(Ascii.Ascii b0 b1 b2 b3 b4 b5 b6 b7) := a in
  [b7; b6; b5; b4; b3; b2; b1; b0].

Fixpoint LexicalLeb (s t : string) : bool :=
  match s, t with
  | String.EmptyString, _ => true
  | String _ _, String.EmptyString => false
  | String a s', String b t' =>
      if Ascii.eqb a b then LexicalLeb s' t'
      else BitsLeb (AsciiBits a) (AsciiBits b)
  end.

(** Insertion sort of the elements by the strings of their keys. *)
Fixpoint InsertByKey {A : Type} (key : A -> string) (x : A) (l : list A)
  : list A :=
  match l with
  | [] => [x]
  | y :: rest =>
      if LexicalLeb (key x) (key y) then x :: l
      else y :: InsertByKey key x rest
  end.

Definition SortByKey (A : Type) (key : A -> string) (l : list A) : list A :=
  fold_right (InsertByKey key) [] l.

Definition TypeName (t : AttribType.t) : string :=
  match t with
  | AttribType.Int32 => "Int32"
  | AttribType.Boolean => "Boolean"
  | AttribType.Float => "Float"
  | AttribType.Vector2 => "Vector2"
  | AttribType.Vector3 => "Vector3"
  | AttribType.Vector4 => "Vector4"
  | AttribType.String => "String"
  | AttribType.Unknown => "Unknown"
  end.

(** Equality of strings decided by the comparison of their characters. *)
Definition StringEqDec (a b : string) : {a = b} + {a <> b} :=
  (if String.eqb a b as c
      return String.eqb a b = c -> {a = b} + {a <> b}
   then fun H => left (proj1 (String.eqb_eq a b) H)
   else fun H => right (proj1 (String.eqb_neq a b) H)) eq_refl.

(** An engine with names and strings as character strings compared
    exactly, two reserved names, and UV layer names for one digit. *)
Definition StringEngine : MeshEngine :=
  {| FName := string;
     FName_eq_dec := StringEqDec;
     IsNone := fun n => String.eqb n "None" || String.eqb n "";
     IsReservedAttributeName :=
       fun n => String.eqb n "Normal" || String.eqb n "TextureCoordinate";
     FString := string;
     FStringEquals := String.eqb;
     FStringEquals_refl := String.eqb_refl;
     EmptyString := "";
     MakeName := fun s => s;
     ToString := fun n => n;
     UVLayerName :=
       fun k =>
         String.append "UV" (String.substring (Z.to_nat k) 1 "0123456789");
     AttributeDisplayString :=
       fun n t autogen =>
         String.append n
           (String.append " - "
              (String.append (TypeName t)
                 (if autogen then " (autogen)" else "")));
     SortByName := SortByKey |}.

#[local] Existing Instance StringEngine.

(** A mesh with two UV channels, a weight map on the vertices, a polygon
    attribute, a polygon group attribute and the reserved normals. *)
Definition Quad : FMeshDescription (engine := StringEngine) :=
  {| VertexAttributes :=
       [("Weight"%string, MkEntry 1%Z (DefaultFloat 0) [Lerpable])];
     VertexInstanceAttributes :=
       [("Normal"%string,
         MkEntry 1%Z (DefaultVector3f 0 0 0) [Lerpable; AutoGenerated]);
        ("TextureCoordinate"%string,
         MkEntry 2%Z (DefaultVector2f 0 0) [Lerpable])];
     TriangleAttributes := [];
     PolygonAttributes :=
       [("Smoothing"%string, MkEntry 1%Z (DefaultInt32 0%Z) [])];
     EdgeAttributes := [];
     PolygonGroupAttributes :=
       [("Material"%string, MkEntry 1%Z (DefaultName "None"%string) [])] |}.

(** The number of UV channels of a mesh: the channels of the texture
    coordinates, none without them. *)
Definition UVChannels (M : FMeshDescription (engine := StringEngine))
  : int32 :=
  match FindAttribute (VertexInstanceAttributes M)
                      "TextureCoordinate"%string with
  | Some e => NumberOfChannels e
  | None => 0%Z
  end.

(** The tool on a static mesh component with that mesh, idle, about to
    add an attribute named Mask, with lists that were never filled. *)
Definition QuadTool : Tool (engine := StringEngine) :=
  {| Target :=
       MkTarget Quad
         (StaticMeshComponent (Some (MkBuildSettings true 0%Z 1%Z)));
     bTargetIsStaticMesh := true;
     PendingAction := Action.NoAction;
     bAttributeListsValid := false;
     bHaveAutoGeneratedLightmapUVSet := false;
     UVActions := MkUVActions [] ""%string;
     LightmapUVActions := Some (MkLightmapActions false 0%Z 0%Z);
     NewAttributeProps :=
       MkNewAttribute "Mask"%string ElementType.Vertex AttribType.Float;
     ModifyAttributeProps := MkModifyAttribute [] ""%string;
     CopyAttributeProps := MkCopyAttribute [] [];
     AttributeProps := MkAttribProperties [] [] [] [] [] [] |}.

(** The actions that are parameters of [OnTick], as actions that leave
    the tool as it is. *)
Definition NoEdit (tool : Tool (engine := StringEngine))
  : option (Tool * list ToolEvent) :=
  Some (tool, []).

Definition Tick : Tool (engine := StringEngine)
                  -> option (Tool * list ToolEvent) :=
  OnTick UVChannels NoEdit NoEdit NoEdit NoEdit NoEdit.

(** The tool after its first tick, with its lists filled. *)
Definition ReadyTool : Tool (engine := StringEngine) :=
  Eval vm_compute in
    match Tick QuadTool with
    | Some (tool, _) => tool
    | None => QuadTool
    end.

(** The ready tool after the tick that adds the weight map Mask. *)
Definition MaskedTool : Tool (engine := StringEngine) :=
  Eval vm_compute in
    match Tick (RequestAction Action.AddWeightMapLayer ReadyTool) with
    | Some (tool, _) => tool
    | None => ReadyTool
    end.

(** The ready tool with one of the names selected. *)
Definition Selecting (s : string) : Tool (engine := StringEngine) :=
  withAttribute (engine := StringEngine) s ReadyTool.

(** The property sets as they are created, and the tool set up with
    them. *)
Definition CreatedSets : PropertySets (engine := StringEngine) :=
  {| CreatedUVActions := MkUVActions [] ""%string;
     CreatedLightmapUVActions := MkLightmapActions false 0%Z 0%Z;
     CreatedNewAttributeProps :=
       MkNewAttribute "Mask"%string ElementType.Vertex AttribType.Float;
     CreatedModifyAttributeProps := MkModifyAttribute [] ""%string;
     CreatedCopyAttributeProps := MkCopyAttribute [] [];
     CreatedAttributeProps := MkAttribProperties [] [] [] [] [] [] |}.

Definition SetUpTool : Tool (engine := StringEngine) :=
  Eval vm_compute in
    match Setup UVChannels CreatedSets QuadTool with
    | Some (tool, _) => tool
    | None => QuadTool
    end.

(** A session: add the weight map Mask, delete it, reset the lightmap
    channels. *)
Definition MaskSession : list (Use (engine := StringEngine)) :=
  [MkUse (MkNewAttribute "Mask"%string ElementType.Vertex AttribType.Float)
         ""%string Action.AddWeightMapLayer;
   MkUse (MkNewAttribute "Mask"%string ElementType.Vertex AttribType.Float)
         "Mask"%string Action.DeleteAttribute;
   MkUse (MkNewAttribute "Tag"%string ElementType.Polygon AttribType.Int32)
         ""%string Action.AddAttribute;
   MkUse (MkNewAttribute "Tag"%string ElementType.Polygon AttribType.Int32)
         ""%string Action.ResetLightmapUVChannels].

(** The tool on the same mesh without texture coordinates. *)
Definition BareTool : Tool (engine := StringEngine) :=
  withMesh
    (MkMesh (VertexAttributes Quad) [] (TriangleAttributes Quad)
            (PolygonAttributes Quad) (EdgeAttributes Quad)
            (PolygonGroupAttributes Quad))
    QuadTool.

End EditorScenario.

(** ** Arithmetic of the model *)

Lemma Qltb_lt (a b : Q) : Qltb a b = true <-> a < b.
Proof.
  unfold Qltb. rewrite negb_true_iff.
  split; intro H.
  - apply Qnot_le_lt. intro Hle.
    apply Qle_bool_iff in Hle. congruence.
  - destruct (Qle_bool b a) eqn:E; [ | reflexivity].
    apply Qle_bool_iff in E. exfalso. apply (Qlt_not_le _ _ H E).
Qed.

Lemma Qltb_ge (a b : Q) : Qltb a b = false <-> b <= a.
Proof.
  unfold Qltb. rewrite negb_false_iff. apply Qle_bool_iff.
Qed.

#[export] Instance veq_Equivalence : Equivalence veq.
Proof.
  split.
  - intros a. repeat split; reflexivity.
  - intros a b (Hx & Hy & Hz). repeat split; symmetry; assumption.
  - intros a b c (Hx & Hy & Hz) (Hx' & Hy' & Hz').
    repeat split; etransitivity; eassumption.
Qed.

Lemma ofNat_0 : ofNat 0 == 0.
Proof. reflexivity. Qed.

Lemma ofNat_S (n : nat) : ofNat (S n) == ofNat n + 1.
Proof.
  unfold ofNat. rewrite Nat2Z.inj_succ. unfold Z.succ.
  rewrite inject_Z_plus. reflexivity.
Qed.



(** ** The loop body and the executions of the loop *)

Section LoopFacts.

Variable Barrel : UEBBarrel.
Variable Bullet : AEBBullet.
Variable IgnoredActors : list AActor.
Variables MaxTime Step : Q.

Let body := LoopBody Barrel Bullet IgnoredActors Step.
Let loop := PredictLoop Barrel Bullet IgnoredActors MaxTime Step.
Let upd (p v : FVector) : FVector :=
  UpdateVelocity Bullet (GetWorld Barrel) p v Step.
Let segmentEnd (s : LoopState) : FVector :=
  (CurrentLocation s
   + LerpV (Velocity s) (upd (CurrentLocation s) (Velocity s)) (1 # 2) * Step)%vec.
Let trace (s : LoopState) : bool * FHitResult.t :=
  PredictTrace Barrel (GetWorld Barrel) Bullet (CurrentLocation s)
               (segmentEnd s) IgnoredActors.
Let stepEffects (s : LoopState) : list Event :=
  [EvUpdateVelocity (CurrentLocation s) (Velocity s) Step;
   EvLineTrace (CurrentLocation s) (segmentEnd s) (TraceChannel Bullet)
               (PredictTraceParams Barrel Bullet IgnoredActors)].

Lemma body_continue (s s' : LoopState) :
  body s = Continue s' ->
  fst (trace s) = false
  /\ Time s' = Time s + Step
  /\ CurrentLocation s' = segmentEnd s
  /\ Velocity s' = upd (CurrentLocation s) (Velocity s)
  /\ Trajectory (outs s') = Trajectory (outs s) ++ [CurrentLocation s]
  /\ effects s' = effects s ++ stepEffects s.
Proof.
  unfold body, LoopBody, trace, segmentEnd, stepEffects, upd.
  destruct (PredictTrace _ _ _ _ _ _) as [hit result].
  destruct hit; intro H; [discriminate | ].
  injection H as <-. simpl. repeat split; reflexivity.
Qed.

Lemma body_return (s : LoopState) (o : Outputs) (fx : list Event) :
  body s = Return o fx ->
  fst (trace s) = true
  /\ Hit o = true
  /\ HitResult o = snd (trace s)
  /\ HitLocation o = FHitResult.Location (snd (trace s))
  /\ HitTime o = Time s + FHitResult.Time (snd (trace s)) * Step
  /\ HitActor o = FHitResult.GetActor (snd (trace s))
  /\ Trajectory o
     = Trajectory (outs s) ++ [FHitResult.Location (snd (trace s))]
  /\ fx = effects s ++ stepEffects s.
Proof.
  unfold body, LoopBody, trace, segmentEnd, stepEffects, upd.
  destruct (PredictTrace _ _ _ _ _ _) as [hit result].
  destruct hit; intro H; [ | discriminate].
  injection H as <- <-. simpl. repeat split; reflexivity.
Qed.


Abbreviation LoopStep := (LoopStep Barrel Bullet IgnoredActors MaxTime Step).
Abbreviation Steps := (Steps Barrel Bullet IgnoredActors MaxTime Step).
Abbreviation Ends := (Ends Barrel Bullet IgnoredActors MaxTime Step).

(** A run of the loop that returns has made some number of full
    iterations, within the fuel, and then ended. *)
Lemma loop_ends (fuel : nat) (s : LoopState) (r : Outputs * list Event) :
  loop fuel s = Some r -> exists n, (n <= fuel)%nat /\ Ends s n r.
Proof.
  revert s. induction fuel as [ | fuel IH]; intros s; simpl;
    destruct (Qltb (Time s) MaxTime) eqn:C; try discriminate.
  - intro H. injection H as <-. exists 0%nat. split; [lia | ].
    eapply ends_condition; [constructor | exact C | reflexivity].
  - fold body. destruct (body s) as [s' | o fx] eqn:B.
    + intro H. apply IH in H. destruct H as (n & Hn & He).
      exists (S n). split; [lia | ].
      assert (Hs : LoopStep s s') by (constructor; assumption).
      destruct He as [s'' Hst C' -> | s'' o fx Hst C' B' ->].
      * eapply ends_condition; [econstructor; eassumption | exact C' | reflexivity].
      * eapply ends_return; [econstructor; eassumption | exact C' | exact B' | reflexivity].
    + intro H. injection H as <-. exists 0%nat. split; [lia | ].
      eapply ends_return; [constructor | exact C | exact B | reflexivity].
  - intro H. injection H as <-. exists 0%nat. split; [lia | ].
    eapply ends_condition; [constructor | exact C | reflexivity].
Qed.




(** More fuel does not change the result. *)
Lemma loop_fuel_mono (fuel fuel' : nat) (s : LoopState)
  (r : Outputs * list Event) :
  loop fuel s = Some r -> (fuel <= fuel')%nat -> loop fuel' s = Some r.
Proof.
  revert s fuel'. induction fuel as [ | fuel IH]; intros s fuel' H Hf;
    simpl in H; destruct (Qltb (Time s) MaxTime) eqn:C; try discriminate.
  - destruct fuel'; simpl; rewrite C; assumption.
  - destruct fuel' as [ | fuel']; [lia | ]. simpl. rewrite C.
    destruct (LoopBody Barrel Bullet IgnoredActors Step s);
      [apply IH; [assumption | lia] | assumption].
  - destruct fuel'; simpl; rewrite C; assumption.
Qed.

(** *** Invariants of the loop *)

Lemma step_time (s s' : LoopState) : LoopStep s s' -> Time s' = Time s + Step.
Proof. intros [? ? _ B]. apply body_continue in B. tauto. Qed.

Lemma steps_time (n : nat) (s s' : LoopState) :
  Steps n s s' -> Time s' == Time s + ofNat n * Step.
Proof.
  induction 1 as [s | n s s' s'' Hs _ IH].
  - rewrite ofNat_0. ring.
  - rewrite IH, (step_time _ _ Hs), ofNat_S. ring.
Qed.



(** The loop condition held at the head of every iteration made. *)
Lemma steps_condition (n : nat) (s s' : LoopState) :
  Steps n s s' ->
  forall k, (k < n)%nat -> Time s + ofNat k * Step < MaxTime.
Proof.
  induction 1 as [s | n s s' s'' Hs _ IH]; intros k Hk; [lia | ].
  pose proof (step_time _ _ Hs) as Ht.
  destruct Hs as [s s' C _]. apply Qltb_lt in C.
  destruct k as [ | k].
  - rewrite ofNat_0. lra.
  - specialize (IH k ltac:(lia)). rewrite Ht in IH.
    rewrite ofNat_S. lra.
Qed.

(** Position, velocity and samples after [n] iterations are those of the
    trapezoidal flight. *)
Lemma steps_flight (n : nat) (s s' : LoopState) :
  Steps n s s' ->
  (CurrentLocation s', Velocity s')
  = Flight upd Step n (CurrentLocation s) (Velocity s)
  /\ Trajectory (outs s')
     = Trajectory (outs s)
       ++ map (fun k => fst (Flight upd Step k (CurrentLocation s) (Velocity s)))
              (seq 0 n).
Proof.
  induction 1 as [s | n s s' s'' Hs _ [IHf IHt]].
  - split; [reflexivity | ]. simpl. rewrite app_nil_r. reflexivity.
  - destruct Hs as [s s' _ B]. apply body_continue in B.
    destruct B as (_ & _ & Hl & Hv & Ht & _).
    assert (E : forall k, Flight upd Step k (CurrentLocation s') (Velocity s')
                          = Flight upd Step (S k) (CurrentLocation s) (Velocity s)).
    { intro k. unfold Flight. rewrite Nat.iter_succ_r.
      rewrite Hl, Hv. reflexivity. }
    split.
    + rewrite IHf. apply E.
    + rewrite IHt, Ht, <- app_assoc. f_equal.
      change (seq 0 (S n)) with (0%nat :: seq 1 n).
      rewrite <- seq_shift. simpl. rewrite map_map. f_equal.
      apply map_ext. intro k. rewrite E. reflexivity.
Qed.

(** The effects of [n] iterations extend a trapezoidal trace at its
    front. *)
Lemma steps_effects (n : nat) (s s' : LoopState) :
  Steps n s s' ->
  exists made,
    effects s' = effects s ++ made
    /\ forall rest last,
         Trapezoid upd Step (CurrentLocation s') (Velocity s') rest last ->
         Trapezoid upd Step (CurrentLocation s) (Velocity s) (made ++ rest)
                   last.
Proof.
  induction 1 as [s | n s s' s'' Hs _ (made & He & Ht)].
  - exists []. split; [rewrite app_nil_r; reflexivity | auto].
  - destruct Hs as [s s' _ B]. apply body_continue in B.
    destruct B as (_ & _ & Hl & Hv & _ & Hfx).
    exists (stepEffects s ++ made). split.
    + rewrite He, Hfx, app_assoc. reflexivity.
    + intros rest last Hr. apply Ht in Hr. rewrite Hl, Hv in Hr.
      unfold stepEffects. simpl. constructor; [ | exact Hr].
      unfold segmentEnd, LerpV, veq. simpl. repeat split; ring.
Qed.

(** The effects of a run that returns: those of before the loop, then a
    trapezoidal trace from the state at the head of the loop, not empty
    when the loop condition holds there.  On a miss the reported location
    is where the trace leads. *)
Lemma loop_effects (fuel : nat) (s : LoopState) (o : Outputs)
  (fx : list Event) :
  loop fuel s = Some (o, fx) ->
  exists made last,
    fx = effects s ++ made
    /\ Trapezoid upd Step (CurrentLocation s) (Velocity s) made last
    /\ (Hit o = false -> HitLocation o = last)
    /\ (Qltb (Time s) MaxTime = true ->
        exists rest,
          made = EvUpdateVelocity (CurrentLocation s) (Velocity s) Step :: rest).
Proof.
  revert s. induction fuel as [ | fuel IH]; intros s; simpl;
    destruct (Qltb (Time s) MaxTime) eqn:C; try discriminate.
  - intro H. injection H as <- <-. exists [], (CurrentLocation s).
    rewrite app_nil_r. repeat split; [constructor | discriminate].
  - fold body. destruct (body s) as [s' | o' fx'] eqn:B.
    + intro H. apply IH in H. destruct H as (made & last & -> & Ht & Hm & _).
      apply body_continue in B. destruct B as (_ & _ & Hl & Hv & _ & Hfx).
      exists (stepEffects s ++ made), last. rewrite Hfx, app_assoc.
      rewrite Hl, Hv in Ht.
      repeat split; [ | exact Hm | intros _; eexists; reflexivity].
      unfold stepEffects. simpl. constructor; [ | exact Ht].
      unfold segmentEnd, LerpV, veq. simpl. repeat split; ring.
    + intro H. injection H as <- <-.
      apply body_return in B.
      destruct B as (_ & Hh & _ & _ & _ & _ & _ & ->).
      exists (stepEffects s), (segmentEnd s).
      repeat split;
        [ | rewrite Hh; discriminate | intros _; eexists; reflexivity].
      unfold stepEffects. constructor; [ | constructor].
      unfold segmentEnd, LerpV, veq. simpl. repeat split; ring.
  - intro H. injection H as <- <-. exists [], (CurrentLocation s).
    rewrite app_nil_r. repeat split; [constructor | discriminate].
Qed.



(** *** A step that is not positive *)

(** With [Step <= 0] the time never reaches a positive [MaxTime]: the loop
    can only be left through a hit. *)
Lemma nonpositive_step_returns_hit (fuel : nat) (s : LoopState)
  (r : Outputs) (fx : list Event) :
  Step <= 0 -> 0 < MaxTime -> Time s <= 0 ->
  loop fuel s = Some (r, fx) -> Hit r = true.
Proof.
  intros HS HM. revert s. induction fuel as [ | fuel IH]; intros s Ht; simpl;
    (assert (C : Qltb (Time s) MaxTime = true) by (apply Qltb_lt; lra));
    rewrite C; [discriminate | ].
  fold body. destruct (body s) as [s' | o' fx'] eqn:B.
  - apply IH. apply body_continue in B.
    destruct B as (_ & -> & _). lra.
  - intro H. injection H as <- <-. apply body_return in B. tauto.
Qed.

Lemma nonpositive_step_diverges (fuel : nat) (s : LoopState) :
  Step <= 0 -> 0 < MaxTime -> Time s <= 0 ->
  NeverHits (GetWorld Barrel) ->
  loop fuel s = None.
Proof.
  intros HS HM Ht Hw.
  destruct (loop fuel s) as [[r fx] | ] eqn:E; [ | reflexivity].
  exfalso.
  pose proof (nonpositive_step_returns_hit _ _ _ _ HS HM Ht E) as Hh.
  apply loop_ends in E. destruct E as (n & _ & He).
  destruct He as [s' _ _ Hr | s' o fx' _ _ B Hr].
  - injection Hr as -> _. discriminate Hh.
  - apply body_return in B. destruct B as (Hf & _).
    unfold trace, PredictTrace in Hf. rewrite Hw in Hf. discriminate Hf.
Qed.

(** *** Determinism *)

Lemma loop_functional (fuel1 fuel2 : nat) (s : LoopState)
  (r1 r2 : Outputs * list Event) :
  loop fuel1 s = Some r1 -> loop fuel2 s = Some r2 -> r1 = r2.
Proof.
  intros H1 H2.
  apply (loop_fuel_mono _ (Nat.max fuel1 fuel2)) in H1; [ | lia].
  apply (loop_fuel_mono _ (Nat.max fuel1 fuel2)) in H2; [ | lia].
  congruence.
Qed.

Lemma body_same_run (s1 s2 : LoopState) :
  SameRun s1 s2 ->
  match body s1, body s2 with
  | Continue s1', Continue s2' => SameRun s1' s2'
  | Return o1 fx1, Return o2 fx2 => o1 = o2 /\ fx1 = fx2
  | _, _ => False
  end.
Proof.
  intros (Ht & Hl & Hv & Htr & Hfx).
  unfold body, LoopBody. rewrite Ht, Hl, Hv, Htr, Hfx.
  destruct (PredictTrace _ _ _ _ _ _) as [[ | ] result].
  - split; reflexivity.
  - repeat split; reflexivity.
Qed.

(** The result of the loop does not depend on the fuel, nor on what the
    outputs held when the loop was entered, but for [HitResult], which a
    loop that makes no iteration leaves as it was. *)
Lemma loop_same_outcome (fuel1 fuel2 : nat) (s1 s2 : LoopState)
  (r1 r2 : Outputs) (fx1 fx2 : list Event) :
  SameRun s1 s2 ->
  loop fuel1 s1 = Some (r1, fx1) -> loop fuel2 s2 = Some (r2, fx2) ->
  SameOutcome r1 r2 /\ fx1 = fx2.
Proof.
  revert fuel2 s1 s2.
  induction fuel1 as [ | fuel1 IH]; intros fuel2 s1 s2 Hs;
    pose proof (body_same_run _ _ Hs) as Hb;
    destruct Hs as (Ht & Hl & Hv & Htr & Hfx);
    destruct fuel2 as [ | fuel2]; simpl; rewrite <- Ht;
    destruct (Qltb (Time s1) MaxTime); try discriminate;
    try (intros H1 H2; injection H1 as <- <-; injection H2 as <- <-;
         simpl; unfold SameOutcome; simpl; repeat split; assumption).
  fold body.
  destruct (body s1) as [s1' | o1 f1], (body s2) as [s2' | o2 f2];
    try contradiction.
  - apply IH. exact Hb.
  - destruct Hb as [-> ->]. intros H1 H2.
    injection H1 as <- <-. injection H2 as <- <-.
    unfold SameOutcome. repeat split; reflexivity.
Qed.

End LoopFacts.

(** ** The code on the scenarios *)

(** A wall at x = 55 across the dragless flight: five full steps, then a
    hit half way through the sixth, at (55,0,0) and time 0.55, on the
    actor of the wall. *)
Example wall_scenario :
  exists r fx,
    PredictHitFromLocation (engine := Scenario.AxisEngine) 10
      Scenario.WallBarrel DefaultOutputs Scenario.Dragless
      ZeroVector Scenario.AimX [] 1 (1 # 10)
    = Some (r, fx)
    /\ Hit r = true
    /\ HitLocation r =v= MkVector 55 0 0
    /\ HitTime r == 55 # 100
    /\ HitActor r = Some 42%nat
    /\ length (Trajectory r) = 6%nat
    /\ length fx = 12%nat.
Proof.
  vm_compute. eexists. eexists. split; [reflexivity | ].
  simpl. repeat split; reflexivity.
Qed.

(** The owner of the barrel is ignored by the query of a bullet with
    [SafeLaunch], ahead of the caller's ignored actors. *)
Example safe_launch_ignores_owner :
  IgnoredActorList
    (PredictTraceParams Scenario.CarriedBarrel Scenario.DraglessBullet
                        [1%nat; 2%nat])
  = [7%nat; 1%nat; 2%nat]
  /\ IgnoredActorList
       (PredictTraceParams Scenario.CarriedBarrel Scenario.FallingBullet
                           [1%nat; 2%nat])
     = [1%nat; 2%nat].
Proof. split; reflexivity. Qed.

(** With a step that is not positive and fuel for a thousand iterations
    the loop is still running. *)
Example negative_step_runs_on :
  PredictHitFromLocation (engine := Scenario.AxisEngine) 1000
    Scenario.OpenBarrel DefaultOutputs Scenario.Dragless
    ZeroVector Scenario.AimX [] 1 (-1 # 10)
  = None.
Proof. vm_compute. reflexivity. Qed.

(** ** Properties of [PredictHitFromLocation] *)

(** The state in which the loop is entered. *)
Lemma entry_state `{EngineMath} (B : UEBBarrel) (o : Outputs) (b : AEBBullet)
  (start aim : FVector) :
  let s := LoopEntry B o b start aim in
  Time s = 0 /\ CurrentLocation s = start
  /\ Velocity s = InitialVelocity B b start aim
  /\ Trajectory (outs s) = [] /\ effects s = [].
Proof. repeat split; reflexivity. Qed.

(** With a valid class the call is the loop run from its entry state. *)
Lemma valid_class_runs_loop `{EngineMath} (fuel : nat) (B : UEBBarrel)
  (o : Outputs) (cls : TSubclassOf) (start aim : FVector)
  (ign : list AActor) (M S : Q) :
  IsValidLowLevel cls = true ->
  PredictHitFromLocation fuel B o cls start aim ign M S
  = PredictLoop B (GetDefaultObject cls) ign M S fuel
      (LoopEntry B o (GetDefaultObject cls) start aim).
Proof. intro V. unfold PredictHitFromLocation. rewrite V. reflexivity. Qed.



(** C7. With a valid bullet class and [MaxTime = 0] the call returns,
    whatever the fuel, a miss at the start location with time 0, an empty
    trajectory and a null hit actor, and it has no effect: no velocity
    update and no collision query. *)
Theorem zero_max_time_misses `{EngineMath} (fuel : nat) (B : UEBBarrel)
  (o : Outputs) (cls : TSubclassOf) (start aim : FVector)
  (ign : list AActor) (M S : Q) :
  IsValidLowLevel cls = true ->
  M == 0 ->
  exists r,
    PredictHitFromLocation fuel B o cls start aim ign M S = Some (r, [])
    /\ Hit r = false
    /\ HitLocation r = start
    /\ HitTime r == 0
    /\ HitActor r = None
    /\ Trajectory r = [].
Proof.
  intros V HM. rewrite valid_class_runs_loop by exact V.
  assert (C : Qltb 0 M = false) by (apply Qltb_ge; rewrite HM; apply Qle_refl).
  eexists. split.
  - destruct fuel; simpl; rewrite C; reflexivity.
  - simpl. repeat split; try reflexivity. exact HM.
Qed.

Lemma zero_max_time_misses_witness :
  exists r,
    PredictHitFromLocation (engine := Scenario.AxisEngine) 0
      Scenario.OpenBarrel Scenario.StaleOutputs Scenario.Dragless
      (MkVector 1 2 3) Scenario.AimX [] 0 (1 # 10) = Some (r, [])
    /\ Hit r = false
    /\ HitLocation r = MkVector 1 2 3
    /\ HitTime r == 0
    /\ HitActor r = None
    /\ Trajectory r = [].
Proof. apply zero_max_time_misses; reflexivity. Defined.

(** C10. The velocity the integration starts from is the normalised aim
    direction times the product of the midpoint of the barrel's muzzle
    velocity multiplier range and the midpoint of the bullet's muzzle
    velocity range, plus the barrel's [AdditionalVelocity], plus the
    inherited velocity: the attach parent's linear velocity at the start
    location times [InheritVelocity] when the parent is a primitive
    component that simulates physics, and zero otherwise.  It is the
    velocity passed to the first velocity update of every run that enters
    the loop. *)
Theorem initial_velocity_midpoints `{EngineMath} (B : UEBBarrel)
  (cls : TSubclassOf) (start aim : FVector) :
  let b := GetDefaultObject cls in
  InitialVelocity B b start aim
  =v= (GetSafeNormal aim
       * (((MuzzleVelocityMultiplierMin B + MuzzleVelocityMultiplierMax B) / 2)
          * ((MuzzleVelocityMin b + MuzzleVelocityMax b) / 2))%Q
       + AdditionalVelocity B
       + InheritedVelocity B start)%vec
  /\ forall fuel o ign M S r fx,
       IsValidLowLevel cls = true ->
       0 < M ->
       PredictHitFromLocation fuel B o cls start aim ign M S = Some (r, fx) ->
       exists rest,
         fx = EvUpdateVelocity start (InitialVelocity B b start aim) S :: rest.
Proof.
  intro b. split.
  - unfold InitialVelocity, InheritedVelocity, Lerp, veq.
    destruct (GetAttachParent B) as [[[ | ] vel | ] | ]; simpl;
      repeat split; field.
  - intros fuel o ign M S r fx V HM Hrun.
    rewrite valid_class_runs_loop in Hrun by exact V.
    apply loop_effects in Hrun.
    destruct Hrun as (made & last & -> & _ & _ & Hfirst).
    destruct Hfirst as (rest & ->).
    + apply Qltb_lt. exact HM.
    + exists rest. reflexivity.
Qed.

Lemma initial_velocity_midpoints_witness :
  InitialVelocity (engine := Scenario.AxisEngine) Scenario.CarriedBarrel
    (GetDefaultObject Scenario.Falling) ZeroVector Scenario.AimX
  =v= MkVector 200 2 3
  /\ exists r rest,
       PredictHitFromLocation (engine := Scenario.AxisEngine) 1
         Scenario.CarriedBarrel DefaultOutputs Scenario.Falling
         ZeroVector Scenario.AimX [] (1 # 10) (1 # 10)
       = Some (r, EvUpdateVelocity ZeroVector
                    (InitialVelocity (engine := Scenario.AxisEngine)
                       Scenario.CarriedBarrel
                       (GetDefaultObject Scenario.Falling)
                       ZeroVector Scenario.AimX)
                    (1 # 10) :: rest).
Proof.
  destruct (initial_velocity_midpoints (H := Scenario.AxisEngine)
              Scenario.CarriedBarrel Scenario.Falling
              ZeroVector Scenario.AimX) as [Hv Hfirst].
  split.
  - etransitivity; [exact Hv | ]. vm_compute. repeat split; reflexivity.
  - destruct (PredictHitFromLocation (engine := Scenario.AxisEngine) 1
                Scenario.CarriedBarrel DefaultOutputs Scenario.Falling
                ZeroVector Scenario.AimX [] (1 # 10) (1 # 10))
      as [[r fx] | ] eqn:E; [ | vm_compute in E; discriminate].
    destruct (Hfirst 1%nat DefaultOutputs [] (1 # 10) (1 # 10) r fx)
      as (rest & ->); [reflexivity | reflexivity | exact E | ].
    exists r, rest. reflexivity.
Defined.














(** C1, as the code has it.  With a valid bullet class and [Step <= 0]:
    when [MaxTime <= 0] the call returns at once, whatever the fuel, a
    miss with an empty trajectory and no effect; when [MaxTime > 0] the
    loop is entered and the time never reaches [MaxTime], so a run that
    returns returns a hit, and against a world that never reports a hit no
    amount of fuel makes the call return. *)
Theorem nonpositive_step_behaviour `{EngineMath} (fuel : nat) (B : UEBBarrel)
  (o : Outputs) (cls : TSubclassOf) (start aim : FVector)
  (ign : list AActor) (M S : Q) :
  IsValidLowLevel cls = true ->
  S <= 0 ->
  (M <= 0 ->
   exists r,
     PredictHitFromLocation fuel B o cls start aim ign M S = Some (r, [])
     /\ Hit r = false
     /\ HitLocation r = start
     /\ HitTime r = M
     /\ HitActor r = None
     /\ Trajectory r = [])
  /\ (0 < M ->
      forall r fx,
        PredictHitFromLocation fuel B o cls start aim ign M S = Some (r, fx) ->
        Hit r = true)
  /\ (0 < M ->
      NeverHits (GetWorld B) ->
      PredictHitFromLocation fuel B o cls start aim ign M S = None).
Proof.
  intros V HS. rewrite valid_class_runs_loop by exact V.
  repeat split.
  - intro HM.
    assert (C : Qltb 0 M = false) by (apply Qltb_ge; exact HM).
    eexists. split.
    + destruct fuel; simpl; rewrite C; reflexivity.
    + simpl. repeat split; reflexivity.
  - intros HM r fx Hrun.
    eapply nonpositive_step_returns_hit; try eassumption. simpl. lra.
  - intros HM Hw.
    apply nonpositive_step_diverges; try assumption. simpl. lra.
Qed.

Lemma nonpositive_step_behaviour_witness :
  PredictHitFromLocation (engine := Scenario.AxisEngine) 1000
    Scenario.OpenBarrel DefaultOutputs Scenario.Dragless
    ZeroVector Scenario.AimX [] 10 (-1 # 10)
  = None.
Proof.
  destruct (nonpositive_step_behaviour (H := Scenario.AxisEngine) 1000
              Scenario.OpenBarrel DefaultOutputs Scenario.Dragless
              ZeroVector Scenario.AimX [] 10 (-1 # 10) eq_refl)
    as (_ & _ & Hd).
  - vm_compute. intro Hc. discriminate Hc.
  - apply Hd; [reflexivity | ]. intros p q c k. reflexivity.
Defined.

(** C1 as stated fails: with [Step = 0] and [MaxTime = 1], in a world
    without obstacles, the time stays 0 and the loop never ends: the call
    returns on no amount of fuel. *)
Lemma zero_step_never_returns :
  ~ exists fuel r fx,
      PredictHitFromLocation (engine := Scenario.AxisEngine) fuel
        (Scenario.DefaultBarrel Scenario.EmptyWorld)
        DefaultOutputs (Scenario.ValidClass Scenario.DraglessBullet)
        ZeroVector (MkVector 1 0 0) [] 1 0
      = Some (r, fx).
Proof.
  intros (fuel & r & fx & E).
  rewrite valid_class_runs_loop in E by reflexivity.
  rewrite nonpositive_step_diverges in E; try discriminate E.
  - vm_compute. intro Hc. discriminate Hc.
  - reflexivity.
  - vm_compute. intro Hc. discriminate Hc.
  - intros p q c k. reflexivity.
Qed.

(** C9. Two calls with the same barrel, bullet class, start, aim, ignored
    actors, maximum time and step, against the same world, that both
    return, return the same outcome (hit flag, location, time, actor), the
    same trajectory and the same effects, whatever fuel each was given.
    What the caller's output variables held before the call matters only
    where the call leaves them untouched: for all of them when the class
    is invalid, and for [HitResult] when no collision query is made. *)
Theorem prediction_deterministic `{EngineMath} (fuel1 fuel2 : nat)
  (B : UEBBarrel) (o1 o2 : Outputs) (cls : TSubclassOf)
  (start aim : FVector) (ign : list AActor) (M S : Q)
  (r1 r2 : Outputs) (fx1 fx2 : list Event) :
  (IsValidLowLevel cls = false -> o1 = o2) ->
  PredictHitFromLocation fuel1 B o1 cls start aim ign M S = Some (r1, fx1) ->
  PredictHitFromLocation fuel2 B o2 cls start aim ign M S = Some (r2, fx2) ->
  SameOutcome r1 r2 /\ fx1 = fx2 /\ (o1 = o2 -> r1 = r2).
Proof.
  intros Ho H1 H2. destruct (IsValidLowLevel cls) eqn:V.
  - rewrite valid_class_runs_loop in H1, H2 by exact V.
    assert (Hs0 : SameRun (LoopEntry B o1 (GetDefaultObject cls) start aim)
                          (LoopEntry B o2 (GetDefaultObject cls) start aim))
      by (repeat split; reflexivity).
    destruct (loop_same_outcome _ _ _ _ _ _ _ _ _ _ _ _ _ Hs0 H1 H2)
      as [Hs Hfx].
    repeat split; try apply Hs; try exact Hfx.
    intros ->.
    pose proof (loop_functional _ _ _ _ _ _ _ _ _ _ H1 H2) as E.
    congruence.
  - unfold PredictHitFromLocation in H1, H2. rewrite V in H1, H2.
    simpl in H1, H2.
    injection H1 as <- <-. injection H2 as <- <-.
    rewrite (Ho eq_refl). unfold SameOutcome. repeat split; reflexivity.
Qed.

Lemma prediction_deterministic_witness :
  exists r1 fx1 r2 fx2,
    PredictHitFromLocation (engine := Scenario.AxisEngine) 10
      Scenario.WallBarrel DefaultOutputs Scenario.Falling
      ZeroVector Scenario.AimX [] 1 (1 # 10)
    = Some (r1, fx1)
    /\ PredictHitFromLocation (engine := Scenario.AxisEngine) 25
         Scenario.WallBarrel Scenario.StaleOutputs Scenario.Falling
         ZeroVector Scenario.AimX [] 1 (1 # 10)
       = Some (r2, fx2)
    /\ SameOutcome r1 r2 /\ fx1 = fx2.
Proof.
  destruct (PredictHitFromLocation (engine := Scenario.AxisEngine) 10
              Scenario.WallBarrel DefaultOutputs Scenario.Falling
              ZeroVector Scenario.AimX [] 1 (1 # 10))
    as [[r1 fx1] | ] eqn:E1; [ | vm_compute in E1; discriminate].
  destruct (PredictHitFromLocation (engine := Scenario.AxisEngine) 25
              Scenario.WallBarrel Scenario.StaleOutputs Scenario.Falling
              ZeroVector Scenario.AimX [] 1 (1 # 10))
    as [[r2 fx2] | ] eqn:E2; [ | vm_compute in E2; discriminate].
  destruct (prediction_deterministic (H := Scenario.AxisEngine) 10 25
              Scenario.WallBarrel DefaultOutputs Scenario.StaleOutputs
              Scenario.Falling ZeroVector Scenario.AimX []
              1 (1 # 10) r1 r2 fx1 fx2) as (Hs & Hfx & _).
  - intro Hc. discriminate Hc.
  - exact E1.
  - exact E2.
  - exists r1, fx1, r2, fx2. repeat split; try assumption; apply Hs.
Defined.

(** ** More on the executions of the loop *)

Section RunFacts.

Context {engine : EngineMath}.
Variable Barrel : UEBBarrel.
Variable Bullet : AEBBullet.
Variable IgnoredActors : list AActor.
Variables MaxTime Step : Q.

Let body := LoopBody Barrel Bullet IgnoredActors Step.
Let loop := PredictLoop Barrel Bullet IgnoredActors MaxTime Step.
Let upd (p v : FVector) : FVector :=
  UpdateVelocity Bullet (GetWorld Barrel) p v Step.
Let flight := Flight upd Step.

(** The collision query of the step that follows [k] steps of the flight
    from [p] with velocity [v]. *)
Let query (p v : FVector) (k : nat) : bool * FHitResult.t :=
  PredictTrace Barrel (GetWorld Barrel) Bullet (fst (flight k p v))
               (fst (flight (S k) p v)) IgnoredActors.

Abbreviation RLoopStep := (LoopStep Barrel Bullet IgnoredActors MaxTime Step).
Abbreviation RSteps := (Steps Barrel Bullet IgnoredActors MaxTime Step).

Lemma body_continue_query (s s' : LoopState) :
  body s = Continue s' ->
  query (CurrentLocation s) (Velocity s) 0 = (false, HitResult (outs s'))
  /\ Hit (outs s') = false.
Proof.
  unfold body, LoopBody, query, flight, Flight, FlightStep, upd. simpl.
  destruct (PredictTrace _ _ _ _ _ _) as [hit result].
  destruct hit; intro H; [discriminate | ].
  injection H as <-. simpl. split; reflexivity.
Qed.

Lemma body_return_query (s : LoopState) (o : Outputs) (fx : list Event) :
  body s = Return o fx ->
  query (CurrentLocation s) (Velocity s) 0 = (true, HitResult o).
Proof.
  unfold body, LoopBody, query, flight, Flight, FlightStep, upd. simpl.
  destruct (PredictTrace _ _ _ _ _ _) as [hit result].
  destruct hit; intro H; [ | discriminate].
  injection H as <- _. reflexivity.
Qed.

Lemma flight_shift (s s' : LoopState) (k : nat) :
  RLoopStep s s' ->
  flight k (CurrentLocation s') (Velocity s')
  = flight (S k) (CurrentLocation s) (Velocity s).
Proof.
  intros [? ? _ B]. apply body_continue in B.
  destruct B as (_ & _ & Hl & Hv & _).
  unfold flight, Flight. rewrite Nat.iter_succ_r, Hl, Hv. reflexivity.
Qed.

(** The queries of the iterations made reported no hit, and the result
    record in the outputs is that of the last of them. *)
Lemma steps_queries (n : nat) (s s' : LoopState) :
  RSteps n s s' ->
  (forall k, (k < n)%nat ->
             fst (query (CurrentLocation s) (Velocity s) k) = false)
  /\ HitResult (outs s')
     = match n with
       | O => HitResult (outs s)
       | S m => snd (query (CurrentLocation s) (Velocity s) m)
       end.
Proof.
  induction 1 as [s | n s s' s'' Hs Hst [IHq IHr]].
  - split; [intros k Hk; lia | reflexivity].
  - assert (Hq : forall k, query (CurrentLocation s') (Velocity s') k
                           = query (CurrentLocation s) (Velocity s) (S k)).
    { intro k. unfold query. rewrite !(flight_shift s s') by exact Hs.
      reflexivity. }
    pose proof Hs as Hs'. destruct Hs' as [s s' _ B].
    apply body_continue_query in B. destruct B as [B _].
    split.
    + intros [ | k] Hk.
      * rewrite B. reflexivity.
      * rewrite <- Hq. apply IHq. lia.
    + rewrite IHr. destruct n as [ | m].
      * rewrite B. reflexivity.
      * rewrite Hq. reflexivity.
Qed.


(** What a run adds to the trajectory and to the effects: one velocity
    update and one query for every sample, the queries on the bullet's
    channel with the parameters of [PredictTrace]. *)
Lemma loop_samples_effects (fuel : nat) (s : LoopState) (r : Outputs)
  (fx : list Event) :
  loop fuel s = Some (r, fx) ->
  exists added made,
    Trajectory r = Trajectory (outs s) ++ added
    /\ fx = effects s ++ made
    /\ length (filter IsUpdate made) = length added
    /\ length (filter IsTrace made) = length added
    /\ length made = (2 * length added)%nat
    /\ TracesUse (TraceChannel Bullet)
                 (PredictTraceParams Barrel Bullet IgnoredActors) made.
Proof.
  revert s. induction fuel as [ | fuel IH]; intros s; simpl;
    destruct (Qltb (Time s) MaxTime) eqn:C; try discriminate.
  - intro H. injection H as <- <-. exists [], []. simpl.
    rewrite !app_nil_r. repeat split; constructor.
  - fold body. destruct (body s) as [s' | o' fx'] eqn:B.
    + intro H. apply IH in H.
      destruct H as (added & made & Ht & Hfx & Hu & Hq & Hl & Hc).
      apply body_continue in B.
      destruct B as (_ & _ & _ & _ & Htr & Hfx').
      rewrite Htr in Ht. rewrite Hfx' in Hfx.
      rewrite <- app_assoc in Ht, Hfx. simpl in Ht, Hfx.
      eexists. eexists. split; [exact Ht | ]. split; [exact Hfx | ].
      simpl. rewrite Hu, Hq, Hl. repeat split; try lia.
      constructor; [exact I | ]. constructor; [split; reflexivity | exact Hc].
    + intro H. injection H as <- <-. apply body_return in B.
      destruct B as (_ & _ & _ & _ & _ & _ & Htr & Hfx).
      eexists. eexists. split; [exact Htr | ]. split; [exact Hfx | ].
      simpl. repeat split.
      constructor; [exact I | ]. constructor; [split; reflexivity | constructor].
  - intro H. injection H as <- <-. exists [], []. simpl.
    rewrite !app_nil_r. repeat split; constructor.
Qed.

End RunFacts.

(** The shape of a run with a valid class that returns: it made [n] full
    steps of the trapezoidal flight, whose queries reported no hit, and
    then either left the loop by its condition or returned the hit of the
    query of step [n]. *)
Lemma run_shape `{EngineMath} (fuel : nat) (B : UEBBarrel) (o : Outputs)
  (cls : TSubclassOf) (start aim : FVector) (ign : list AActor)
  (MaxTime Step : Q) (r : Outputs) (fx : list Event) :
  IsValidLowLevel cls = true ->
  PredictHitFromLocation fuel B o cls start aim ign MaxTime Step
  = Some (r, fx) ->
  let b := GetDefaultObject cls in
  let flight k :=
    Flight (fun p v => UpdateVelocity b (GetWorld B) p v Step) Step k start
           (InitialVelocity B b start aim) in
  let query k :=
    PredictTrace B (GetWorld B) b (fst (flight k)) (fst (flight (S k))) ign in
  exists n,
    (forall k, (k < n)%nat -> fst (query k) = false)
    /\ (forall k, (k < n)%nat -> ofNat k * Step < MaxTime)
    /\ (Hit r = true ->
        query n = (true, HitResult r)
        /\ ofNat n * Step < MaxTime
        /\ Trajectory r
           = map (fun k => fst (flight k)) (seq 0 n)
             ++ [FHitResult.Location (HitResult r)]
        /\ HitLocation r = FHitResult.Location (HitResult r)
        /\ HitActor r = FHitResult.GetActor (HitResult r))
    /\ (Hit r = false ->
        MaxTime <= ofNat n * Step
        /\ Trajectory r = map (fun k => fst (flight k)) (seq 0 n)
        /\ HitLocation r = fst (flight n)
        /\ HitTime r = MaxTime
        /\ HitActor r = None
        /\ HitResult r
           = match n with
             | O => HitResult o
             | S m => snd (query m)
             end).
Proof.
  intros V Hrun b flight query.
  rewrite valid_class_runs_loop in Hrun by exact V. fold b in Hrun.
  apply loop_ends in Hrun. destruct Hrun as (n & _ & He).
  assert (Hshape : forall s',
            Steps B b ign MaxTime Step n (LoopEntry B o b start aim) s' ->
            (forall k, (k < n)%nat -> fst (query k) = false)
            /\ (forall k, (k < n)%nat -> ofNat k * Step < MaxTime)
            /\ Time s' == ofNat n * Step
            /\ CurrentLocation s' = fst (flight n)
            /\ Velocity s' = snd (flight n)
            /\ Trajectory (outs s') = map (fun k => fst (flight k)) (seq 0 n)
            /\ HitResult (outs s')
               = match n with
                 | O => HitResult o
                 | S m => snd (query m)
                 end).
  { intros s' Hst.
    destruct (steps_queries _ _ _ _ _ _ _ _ Hst) as [Hq Hr].
    destruct (steps_flight _ _ _ _ _ _ _ _ Hst) as [Hfl Htr].
    pose proof (steps_time _ _ _ _ _ _ _ _ Hst) as Ht.
    pose proof (steps_condition _ _ _ _ _ _ _ _ Hst) as Hc.
    simpl in Hq, Hr, Hfl, Htr, Ht, Hc.
    repeat split.
    - exact Hq.
    - intros k Hk. specialize (Hc k Hk). lra.
    - rewrite Ht. ring.
    - change (CurrentLocation s') with (fst (CurrentLocation s', Velocity s')).
      rewrite Hfl. reflexivity.
    - change (Velocity s') with (snd (CurrentLocation s', Velocity s')).
      rewrite Hfl. reflexivity.
    - exact Htr.
    - exact Hr. }
  exists n.
  destruct He as [s' Hst C Hr | s' o' fx' Hst C Hb Hr].
  - injection Hr as -> _.
    destruct (Hshape s' Hst) as (Hq & Hc & Ht & Hl & _ & Htr & Hres).
    apply Qltb_ge in C. rewrite Ht in C. simpl.
    repeat split; try assumption; try discriminate.
  - injection Hr as <- <-.
    destruct (Hshape s' Hst) as (Hq & Hc & Ht & Hl & Hv & Htr & _).
    apply Qltb_lt in C. rewrite Ht in C.
    pose proof (body_return_query _ _ _ _ _ _ _ Hb) as Hbq.
    apply body_return in Hb.
    destruct Hb as (_ & Hh & Hres & Hloc & _ & Hact & Htr' & _).
    rewrite Hl, Hv in Hbq.
    split; [exact Hq | ]. split; [exact Hc | ]. split.
    + intros _. repeat split.
      * rewrite <- Hbq. unfold query, flight, Flight, FlightStep. simpl.
        destruct (Nat.iter n _ _); reflexivity.
      * exact C.
      * rewrite Htr', Htr, Hres. reflexivity.
      * rewrite Hloc, Hres. reflexivity.
      * rewrite Hact, Hres. reflexivity.
    + rewrite Hh. discriminate.
Qed.

Section Progress.

Variable Barrel : UEBBarrel.
Variable Bullet : AEBBullet.
Variable IgnoredActors : list AActor.
Variables MaxTime Step : Q.

Let body := LoopBody Barrel Bullet IgnoredActors Step.
Let upd (p v : FVector) : FVector :=
  UpdateVelocity Bullet (GetWorld Barrel) p v Step.
Let flight := Flight upd Step.
Let query (p v : FVector) (k : nat) : bool * FHitResult.t :=
  PredictTrace Barrel (GetWorld Barrel) Bullet (fst (flight k p v))
               (fst (flight (S k) p v)) IgnoredActors.



End Progress.

(** Under a velocity rule that adds a constant acceleration [g] times the
    step, the trapezoidal flight is on the parabola of [g] after every
    step, and its velocity grows linearly. *)
Lemma flight_on_parabola (upd : FVector -> FVector -> FVector) (Step : Q)
  (start v0 g : FVector) :
  (forall p v, upd p v =v= (v + g * Step)%vec) ->
  forall k,
    fst (Flight upd Step k start v0) =v= Parabola start v0 g (ofNat k * Step)
    /\ snd (Flight upd Step k start v0) =v= (v0 + g * (ofNat k * Step))%vec.
Proof.
  intros Hupd. induction k as [ | k [IHp IHv]].
  - unfold Flight, Parabola, veq. simpl. rewrite ofNat_0.
    repeat split; field.
  - unfold Flight in *. simpl Nat.iter.
    destruct (Nat.iter k (FlightStep upd Step) (start, v0)) as [p v].
    simpl in IHp, IHv. unfold FlightStep. simpl fst. simpl snd.
    pose proof (Hupd p v) as (Hx & Hy & Hz).
    destruct IHp as (Px & Py & Pz). destruct IHv as (Vx & Vy & Vz).
    unfold Parabola, LerpV, veq in *. simpl in *.
    rewrite Hx, Hy, Hz, Px, Py, Pz, Vx, Vy, Vz, !ofNat_S.
    repeat split; field.
Qed.

(** ** Further properties of the prediction *)



(** X2. Every run with a valid class that returns made exactly one
    velocity update and one collision query for each sample of the
    trajectory, and nothing else: the effects are twice as many as the
    samples. *)
Theorem one_update_one_query_per_sample `{EngineMath} (fuel : nat)
  (B : UEBBarrel) (o : Outputs) (cls : TSubclassOf) (start aim : FVector)
  (ign : list AActor) (MaxTime Step : Q) (r : Outputs) (fx : list Event) :
  IsValidLowLevel cls = true ->
  PredictHitFromLocation fuel B o cls start aim ign MaxTime Step
  = Some (r, fx) ->
  length (filter IsUpdate fx) = length (Trajectory r)
  /\ length (filter IsTrace fx) = length (Trajectory r)
  /\ length fx = (2 * length (Trajectory r))%nat.
Proof.
  intros V Hrun. rewrite valid_class_runs_loop in Hrun by exact V.
  apply loop_samples_effects in Hrun.
  destruct Hrun as (added & made & Ht & Hfx & Hu & Hq & Hl & _).
  simpl in Ht, Hfx. subst fx. rewrite Ht. repeat split; assumption.
Qed.

Lemma one_update_one_query_per_sample_witness :
  exists r fx,
    PredictHitFromLocation (engine := Scenario.AxisEngine) 10
      Scenario.WallBarrel Scenario.StaleOutputs Scenario.Dragless
      ZeroVector Scenario.AimX [] 1 (1 # 10)
    = Some (r, fx)
    /\ length (filter IsUpdate fx) = length (Trajectory r)
    /\ length (filter IsTrace fx) = length (Trajectory r)
    /\ length fx = (2 * length (Trajectory r))%nat.
Proof.
  destruct (PredictHitFromLocation (engine := Scenario.AxisEngine) 10
              Scenario.WallBarrel Scenario.StaleOutputs Scenario.Dragless
              ZeroVector Scenario.AimX [] 1 (1 # 10))
    as [[r fx] | ] eqn:E; [ | vm_compute in E; discriminate].
  exists r, fx. split; [reflexivity | ].
  exact (one_update_one_query_per_sample (H := Scenario.AxisEngine) 10
           Scenario.WallBarrel Scenario.StaleOutputs Scenario.Dragless
           ZeroVector Scenario.AimX [] 1 (1 # 10) r fx eq_refl E).
Defined.









(** X7. Under a velocity rule that adds a constant acceleration [g] times
    the step (gravity without drag; no drag at all when [g] is zero) the
    prediction is exact: every sample of the trajectory taken before a
    step lies on the parabola [start + v0 t + g t^2 / 2] at [t = k * Step]
    for its index [k], and so does the location of a miss, at the time of
    the last step made. *)
Theorem constant_acceleration_on_parabola `{EngineMath} (fuel : nat)
  (B : UEBBarrel) (o : Outputs) (cls : TSubclassOf) (start aim : FVector)
  (ign : list AActor) (MaxTime Step : Q) (g : FVector)
  (r : Outputs) (fx : list Event) :
  IsValidLowLevel cls = true ->
  (forall p v,
     UpdateVelocity (GetDefaultObject cls) (GetWorld B) p v Step
     =v= (v + g * Step)%vec) ->
  PredictHitFromLocation fuel B o cls start aim ign MaxTime Step
  = Some (r, fx) ->
  let v0 := InitialVelocity B (GetDefaultObject cls) start aim in
  let n := (length (Trajectory r) - (if Hit r then 1 else 0))%nat in
  (forall k, (k < n)%nat ->
             nth k (Trajectory r) ZeroVector
             =v= Parabola start v0 g (ofNat k * Step))
  /\ (Hit r = false -> HitLocation r =v= Parabola start v0 g (ofNat n * Step)).
Proof.
  intros V Hupd Hrun v0 n.
  destruct (run_shape fuel B o cls start aim ign MaxTime Step r fx V Hrun)
    as (m & _ & _ & Hhit & Hmiss).
  pose proof (flight_on_parabola _ Step start v0 g Hupd) as Hfl.
  assert (Hnth : forall k tail,
            (k < m)%nat ->
            nth k (map (fun j =>
                          fst (Flight
                                 (fun p v =>
                                    UpdateVelocity (GetDefaultObject cls)
                                      (GetWorld B) p v Step)
                                 Step j start v0))
                       (seq 0 m) ++ tail) ZeroVector
            =v= Parabola start v0 g (ofNat k * Step)).
  { intros k tail Hk.
    rewrite app_nth1 by (rewrite length_map, length_seq; exact Hk).
    rewrite (nth_indep _ ZeroVector
               (fst (Flight
                       (fun p v =>
                          UpdateVelocity (GetDefaultObject cls) (GetWorld B)
                                         p v Step)
                       Step 0 start v0)))
      by (rewrite length_map, length_seq; exact Hk).
    rewrite (map_nth (fun j =>
                        fst (Flight
                               (fun p v =>
                                  UpdateVelocity (GetDefaultObject cls)
                                    (GetWorld B) p v Step)
                               Step j start v0))).
    rewrite seq_nth by exact Hk. simpl. apply Hfl. }
  destruct (Hit r) eqn:Hh.
  - destruct (Hhit eq_refl) as (_ & _ & Htr & _).
    assert (E : n = m).
    { unfold n. rewrite Htr, length_app, length_map, length_seq. simpl. lia. }
    rewrite E. split; [ | discriminate].
    intros k Hk. rewrite Htr. apply Hnth. exact Hk.
  - destruct (Hmiss eq_refl) as (_ & Htr & Hl & _).
    assert (E : n = m).
    { unfold n. rewrite Htr, length_map, length_seq. lia. }
    rewrite E. split.
    + intros k Hk. rewrite Htr, <- (app_nil_r (map _ _)). apply Hnth. exact Hk.
    + intros _. rewrite Hl. apply Hfl.
Qed.

Lemma constant_acceleration_on_parabola_witness :
  exists r fx,
    PredictHitFromLocation (engine := Scenario.AxisEngine) 4
      Scenario.OpenBarrel DefaultOutputs Scenario.Falling
      ZeroVector Scenario.AimX [] 1 (3 # 10)
    = Some (r, fx)
    /\ nth 3 (Trajectory r) ZeroVector
       =v= Parabola ZeroVector (MkVector 100 0 0) (MkVector 0 0 (-10))
                    (9 # 10)
    /\ HitLocation r
       =v= Parabola ZeroVector (MkVector 100 0 0) (MkVector 0 0 (-10))
                    (12 # 10).
Proof.
  destruct (PredictHitFromLocation (engine := Scenario.AxisEngine) 4
              Scenario.OpenBarrel DefaultOutputs Scenario.Falling
              ZeroVector Scenario.AimX [] 1 (3 # 10))
    as [[r fx] | ] eqn:E; [ | vm_compute in E; discriminate].
  assert (Hh : Hit r = false)
    by (vm_compute in E; injection E as <- _; reflexivity).
  assert (Hlen : length (Trajectory r) = 4%nat)
    by (vm_compute in E; injection E as <- _; reflexivity).
  destruct (constant_acceleration_on_parabola (H := Scenario.AxisEngine) 4
              Scenario.OpenBarrel DefaultOutputs Scenario.Falling
              ZeroVector Scenario.AimX [] 1 (3 # 10) (MkVector 0 0 (-10))
              r fx eq_refl) as [Hs Hm].
  - intros p v. reflexivity.
  - exact E.
  - rewrite Hh, Hlen in Hs, Hm. simpl in Hs, Hm.
    exists r, fx. split; [reflexivity | ]. split.
    + etransitivity; [apply (Hs 3%nat); apply Nat.ltb_lt; reflexivity | ].
      vm_compute. repeat split; reflexivity.
    + etransitivity; [apply (Hm eq_refl) | ].
      vm_compute. repeat split; reflexivity.
Defined.

(** ** The attribute editor: attribute sets *)

Module EditorFacts.

Import AttributeEditor.

Section Facts.

Context {engine : MeshEngine}.
Variable GetNumUVChannels : FMeshDescription -> int32.
Variables ClearNormals ClearUVs AddUVSet DeleteSelectedUVSet
          DuplicateSelectedUVSet : Tool -> option (Tool * list ToolEvent).

Lemma NameEq_eq (a b : FName) : NameEq a b = true <-> a = b.
Proof.
  unfold NameEq. destruct (FName_eq_dec a b); split; congruence.
Qed.

Lemma NameEq_refl (a : FName) : NameEq a a = true.
Proof. apply NameEq_eq. reflexivity. Qed.

Lemma NameEq_neq (a b : FName) : a <> b -> NameEq a b = false.
Proof.
  intro Hn. destruct (NameEq a b) eqn:E; [ | reflexivity].
  apply NameEq_eq in E. contradiction.
Qed.

Lemma find_append {A : Type} (f : A -> bool) (l1 l2 : list A) :
  find f (l1 ++ l2)
  = match find f l1 with Some x => Some x | None => find f l2 end.
Proof.
  induction l1 as [ | x l1 IH]; simpl; [reflexivity | ].
  destruct (f x); [reflexivity | exact IH].
Qed.

Lemma find_unregister_same (n : FName) (s : FAttributesSetBase) :
  FindAttribute (UnregisterAttribute n s) n = None.
Proof.
  unfold FindAttribute, UnregisterAttribute.
  induction s as [ | [m e] s IH]; simpl; [reflexivity | ].
  destruct (NameEq m n) eqn:E; simpl; [exact IH | ].
  rewrite E. exact IH.
Qed.

Lemma find_unregister_other (n n' : FName) (s : FAttributesSetBase) :
  n' <> n ->
  FindAttribute (UnregisterAttribute n s) n' = FindAttribute s n'.
Proof.
  intro Hn. unfold FindAttribute, UnregisterAttribute.
  induction s as [ | [m e] s IH]; simpl; [reflexivity | ].
  destruct (NameEq m n) eqn:E; simpl.
  - apply NameEq_eq in E. subst m.
    rewrite (NameEq_neq n n') by congruence. exact IH.
  - destruct (NameEq m n'); [reflexivity | exact IH].
Qed.

Lemma unregister_absent (n : FName) (s : FAttributesSetBase) :
  FindAttribute s n = None -> UnregisterAttribute n s = s.
Proof.
  unfold FindAttribute, UnregisterAttribute.
  induction s as [ | [m e] s IH]; simpl; [reflexivity | ].
  destruct (NameEq m n); simpl; [discriminate | ].
  intro H. rewrite IH by exact H. reflexivity.
Qed.

Lemma find_register_same (n : FName) (e : FAttributesSetEntry)
  (s : FAttributesSetBase) :
  FindAttribute (RegisterAttribute n e s) n = Some e.
Proof.
  pose proof (find_unregister_same n s) as H.
  unfold FindAttribute, RegisterAttribute in *. rewrite find_append.
  destruct (find _ (UnregisterAttribute n s)); [discriminate | ].
  simpl. rewrite NameEq_refl. reflexivity.
Qed.

Lemma find_register_other (n n' : FName) (e : FAttributesSetEntry)
  (s : FAttributesSetBase) :
  n' <> n ->
  FindAttribute (RegisterAttribute n e s) n' = FindAttribute s n'.
Proof.
  intro Hn. pose proof (find_unregister_other n n' s Hn) as H.
  unfold FindAttribute, RegisterAttribute in *. rewrite find_append.
  destruct (find _ (UnregisterAttribute n s)) as [x | ]; [exact H | ].
  simpl. rewrite (NameEq_neq n n') by congruence. exact H.
Qed.

Lemma get_set_same (M : FMeshDescription) (E : ElementType.t)
  (s : FAttributesSetBase) :
  GetAttributeSetByType (SetAttributeSetByType M E s) E = s.
Proof. destruct E; reflexivity. Qed.

Lemma get_set_other (M : FMeshDescription) (E E' : ElementType.t)
  (s : FAttributesSetBase) :
  E' <> E ->
  GetAttributeSetByType (SetAttributeSetByType M E s) E'
  = GetAttributeSetByType M E'.
Proof. destruct E, E'; intro Hn; try reflexivity; contradiction. Qed.

Lemma set_get (M : FMeshDescription) (E : ElementType.t) :
  SetAttributeSetByType M E (GetAttributeSetByType M E) = M.
Proof. destruct M, E; reflexivity. Qed.

Lemma element_type_eq_dec (E E' : ElementType.t) : {E = E'} + {E <> E'}.
Proof. decide equality. Qed.

(** Registering and unregistering in one set of a mesh. *)
Lemma lookup_register (M : FMeshDescription) (E E' : ElementType.t)
  (n n' : FName) (e : FAttributesSetEntry) :
  Lookup (SetAttributeSetByType M E
            (RegisterAttribute n e (GetAttributeSetByType M E))) E' n'
  = if element_type_eq_dec E' E
    then if FName_eq_dec n' n then Some e else Lookup M E' n'
    else Lookup M E' n'.
Proof.
  unfold Lookup. destruct (element_type_eq_dec E' E) as [-> | HE].
  - rewrite get_set_same. destruct (FName_eq_dec n' n) as [-> | Hn].
    + apply find_register_same.
    + apply find_register_other. exact Hn.
  - rewrite get_set_other by exact HE. reflexivity.
Qed.

Lemma lookup_unregister (M : FMeshDescription) (E E' : ElementType.t)
  (n n' : FName) :
  Lookup (SetAttributeSetByType M E
            (UnregisterAttribute n (GetAttributeSetByType M E))) E' n'
  = if element_type_eq_dec E' E
    then if FName_eq_dec n' n then None else Lookup M E' n'
    else Lookup M E' n'.
Proof.
  unfold Lookup. destruct (element_type_eq_dec E' E) as [-> | HE].
  - rewrite get_set_same. destruct (FName_eq_dec n' n) as [-> | Hn].
    + apply find_unregister_same.
    + apply find_unregister_other. exact Hn.
  - rewrite get_set_other by exact HE. reflexivity.
Qed.

Lemma has_attribute_lookup (M : FMeshDescription) (E : ElementType.t)
  (n : FName) :
  HasAttribute M E n = true <-> Lookup M E n <> None.
Proof.
  unfold HasAttribute, SetHasAttribute, Lookup.
  destruct (FindAttribute _ n); split; congruence.
Qed.

Lemma has_attribute_false (M : FMeshDescription) (E : ElementType.t)
  (n : FName) :
  HasAttribute M E n = false <-> Lookup M E n = None.
Proof.
  unfold HasAttribute, SetHasAttribute, Lookup.
  destruct (FindAttribute _ n); split; congruence.
Qed.

(** ** The attribute editor: adding and deleting attributes *)

(** X8. [AddNewAttribute] refuses a name that is none, a name that the
    element type already has an attribute of, and the types String and
    Unknown: it shows one warning and leaves the tool and its target as
    they are, with no transaction and no commit. *)
Theorem add_attribute_rejected (E : ElementType.t) (T : AttribType.t)
  (n : FName) (tool : Tool) :
  IsNone n = true
  \/ HasAttribute (Mesh (Target tool)) E n = true
  \/ T = AttribType.String
  \/ T = AttribType.Unknown ->
  exists text, AddNewAttribute E T n tool = (tool, [EvDisplayMessage text]).
Proof.
  intro H. unfold AddNewAttribute.
  destruct (IsNone n); [eexists; reflexivity | ].
  destruct (HasAttribute (Mesh (Target tool)) E n); [eexists; reflexivity | ].
  destruct H as [H | [H | [-> | ->]]]; try discriminate;
    eexists; reflexivity.
Qed.

(** X9. In every other case [AddNewAttribute] commits, in one undo
    transaction, a mesh that has the new attribute with one channel, the
    type asked for and the [Lerpable] flag for the float and vector types
    only, and has every other attribute as before; the lists of the tool
    are marked invalid. *)
Theorem add_attribute_committed (E : ElementType.t) (T : AttribType.t)
  (n : FName) (tool : Tool) :
  IsNone n = false ->
  HasAttribute (Mesh (Target tool)) E n = false ->
  T <> AttribType.String ->
  T <> AttribType.Unknown ->
  exists e NewMesh,
    AddNewAttribute E T n tool = Committed "Add Attribute" NewMesh tool
    /\ Lookup NewMesh E n = Some e
    /\ NumberOfChannels e = 1%Z
    /\ AttribTypeOf e = T
    /\ Flags e = RegisteredFlags T
    /\ forall E' n',
         E' <> E \/ n' <> n ->
         Lookup NewMesh E' n' = Lookup (Mesh (Target tool)) E' n'.
Proof.
  intros Hnone Hhas HS HU. unfold AddNewAttribute. rewrite Hnone, Hhas.
  assert (Hother : forall e E' n',
            E' <> E \/ n' <> n ->
            Lookup (SetAttributeSetByType (Mesh (Target tool)) E
                      (RegisterAttribute n e
                         (GetAttributeSetByType (Mesh (Target tool)) E)))
                   E' n'
            = Lookup (Mesh (Target tool)) E' n').
  { intros e E' n' Hd. rewrite lookup_register.
    destruct (element_type_eq_dec E' E) as [HE | HE]; [ | reflexivity].
    destruct (FName_eq_dec n' n) as [Hn | Hn]; [ | reflexivity].
    destruct Hd; contradiction. }
  assert (Hsame : forall e,
            Lookup (SetAttributeSetByType (Mesh (Target tool)) E
                      (RegisterAttribute n e
                         (GetAttributeSetByType (Mesh (Target tool)) E)))
                   E n
            = Some e).
  { intro e. rewrite lookup_register.
    destruct (element_type_eq_dec E E) as [_ | HE]; [ | contradiction].
    destruct (FName_eq_dec n n) as [_ | Hn]; [reflexivity | contradiction]. }
  destruct T; try contradiction; simpl;
    (eexists; eexists; split; [reflexivity | ];
     split; [apply Hsame | ]; repeat split; apply Hother).
Qed.

(** X10. [DeleteAttribute] looks the selected name up on the vertices
    first and on the triangles last.  When the vertices have an attribute
    of the name, or when neither the vertices nor the polygon groups have
    one and the triangles do, it commits, in one undo transaction, a mesh
    without that attribute and with every other attribute as before: so
    an attribute of the triangles with the name of one of the vertices
    stays. *)
Theorem delete_removes_first_match (E : ElementType.t) (tool : Tool) :
  let M := Mesh (Target tool) in
  let n := MakeName (Attribute (ModifyAttributeProps tool)) in
  IsReservedAttributeName n = false ->
  (E = ElementType.Vertex /\ HasAttribute M ElementType.Vertex n = true)
  \/ (E = ElementType.Triangle
      /\ HasAttribute M ElementType.Vertex n = false
      /\ HasAttribute M ElementType.PolygonGroup n = false
      /\ HasAttribute M ElementType.Triangle n = true) ->
  exists NewMesh,
    DeleteAttribute tool = Committed "Remove Attribute" NewMesh tool
    /\ Lookup NewMesh E n = None
    /\ forall E' n',
         E' <> E \/ n' <> n -> Lookup NewMesh E' n' = Lookup M E' n'.
Proof.
  intros M n Hres Hcase. unfold DeleteAttribute. fold M n. rewrite Hres.
  assert (Hun : Lookup (SetAttributeSetByType M E
                          (UnregisterAttribute n (GetAttributeSetByType M E)))
                       E n = None
                /\ forall E' n',
                     E' <> E \/ n' <> n ->
                     Lookup (SetAttributeSetByType M E
                               (UnregisterAttribute n
                                  (GetAttributeSetByType M E))) E' n'
                     = Lookup M E' n').
  { split.
    - rewrite lookup_unregister.
      destruct (element_type_eq_dec E E) as [_ | HE]; [ | contradiction].
      destruct (FName_eq_dec n n) as [_ | Hn]; [reflexivity | contradiction].
    - intros E' n' Hd. rewrite lookup_unregister.
      destruct (element_type_eq_dec E' E) as [HE | HE]; [ | reflexivity].
      destruct (FName_eq_dec n' n) as [Hn | Hn]; [ | reflexivity].
      destruct Hd; contradiction. }
  destruct Hcase as [[-> Hv] | (-> & Hv & Hg & Ht)].
  - rewrite Hv. simpl. eexists. split; [reflexivity | exact Hun].
  - rewrite Hv, Hg, Ht. simpl. eexists. split; [reflexivity | exact Hun].
Qed.

(** X11. A name that only the polygon groups have an attribute of passes
    the test of [DeleteAttribute], but the attribute of the polygons is
    what is then removed: the tool commits a mesh in one undo transaction
    and marks its lists invalid, the attribute of the polygon groups is
    still there, and when the polygons have no attribute of the name the
    committed mesh is the mesh as it was. *)
Theorem delete_of_polygon_group_attribute_keeps_it (tool : Tool) :
  let M := Mesh (Target tool) in
  let n := MakeName (Attribute (ModifyAttributeProps tool)) in
  IsReservedAttributeName n = false ->
  HasAttribute M ElementType.Vertex n = false ->
  HasAttribute M ElementType.PolygonGroup n = true ->
  exists NewMesh,
    DeleteAttribute tool = Committed "Remove Attribute" NewMesh tool
    /\ Lookup NewMesh ElementType.PolygonGroup n
       = Lookup M ElementType.PolygonGroup n
    /\ HasAttribute NewMesh ElementType.PolygonGroup n = true
    /\ Lookup NewMesh ElementType.Polygon n = None
    /\ (forall E' n',
          E' <> ElementType.Polygon \/ n' <> n ->
          Lookup NewMesh E' n' = Lookup M E' n')
    /\ (HasAttribute M ElementType.Polygon n = false -> NewMesh = M).
Proof.
  intros M n Hres Hv Hg.
  set (NewMesh :=
         SetAttributeSetByType M ElementType.Polygon
           (UnregisterAttribute n
              (GetAttributeSetByType M ElementType.Polygon))).
  assert (Hother : forall E' n',
            E' <> ElementType.Polygon \/ n' <> n ->
            Lookup NewMesh E' n' = Lookup M E' n').
  { intros E' n' Hd. unfold NewMesh. rewrite lookup_unregister.
    destruct (element_type_eq_dec E' ElementType.Polygon) as [HE | HE];
      [ | reflexivity].
    destruct (FName_eq_dec n' n) as [Hn | Hn]; [ | reflexivity].
    destruct Hd; contradiction. }
  assert (Hkeep : Lookup NewMesh ElementType.PolygonGroup n
                  = Lookup M ElementType.PolygonGroup n)
    by (apply Hother; left; discriminate).
  exists NewMesh. split.
  { unfold DeleteAttribute. fold M n. rewrite Hres, Hv, Hg. reflexivity. }
  split; [exact Hkeep | ]. split.
  { apply has_attribute_lookup. rewrite Hkeep.
    apply has_attribute_lookup. exact Hg. }
  split.
  { unfold NewMesh. rewrite lookup_unregister.
    destruct (element_type_eq_dec ElementType.Polygon ElementType.Polygon)
      as [_ | HE]; [ | contradiction].
    destruct (FName_eq_dec n n) as [_ | Hn]; [reflexivity | contradiction]. }
  split; [exact Hother | ].
  intro Hp. apply has_attribute_false in Hp. unfold Lookup in Hp.
  unfold NewMesh. rewrite unregister_absent by exact Hp. apply set_get.
Qed.

(** ** The attribute editor: the lists and the tick *)

Abbreviation Initialize := (InitializeAttributeLists GetNumUVChannels).
Abbreviation Tick :=
  (OnTick GetNumUVChannels ClearNormals ClearUVs AddUVSet
          DeleteSelectedUVSet DuplicateSelectedUVSet).

Lemma initialize_inv (tool tool' : Tool) :
  Initialize tool = Some tool' ->
  Target tool' = Target tool
  /\ bTargetIsStaticMesh tool' = bTargetIsStaticMesh tool
  /\ PendingAction tool' = PendingAction tool
  /\ NewAttributeProps tool' = NewAttributeProps tool
  /\ bAttributeListsValid tool' = true
  /\ AttributeNamesList (ModifyAttributeProps tool')
     = ListedNames (Mesh (Target tool))
  /\ Attribute (ModifyAttributeProps tool') = SelectionAfter tool
  /\ (0 < GetNumUVChannels (Mesh (Target tool)))%Z
  /\ UVLayerNamesList (UVActions tool')
     = map (fun k => UVLayerName (Z.of_nat k))
           (seq 0 (Z.to_nat (GetNumUVChannels (Mesh (Target tool)))))
  /\ UVLayer (UVActions tool') = UVLayerName 0%Z.
Proof.
  unfold InitializeAttributeLists, SelectionAfter, ListedNames,
    ExtractAttribList.
  cbn [fst snd].
  destruct (Z.to_nat (GetNumUVChannels (Mesh (Target tool)))) as [ | k] eqn:En;
    [discriminate | ].
  cbn [seq map].
  match goal with
  | |- match ?l with Some _ => _ | None => _ end = _ -> _ =>
      destruct l as [[lightmapActions haveAutoGenerated] | ];
        [ | discriminate]
  end.
  intro H. injection H as <-. cbn.
  repeat split; try reflexivity; lia.
Qed.

Lemma initialize_returns (tool : Tool) :
  (0 < GetNumUVChannels (Mesh (Target tool)))%Z ->
  ~ LightmapStepFails tool ->
  exists tool', Initialize tool = Some tool'.
Proof.
  intros Hn Hl. unfold InitializeAttributeLists, ExtractAttribList.
  cbn [fst snd].
  destruct (Z.to_nat (GetNumUVChannels (Mesh (Target tool)))) as [ | k] eqn:En;
    [lia | ].
  cbn [seq map].
  destruct (bTargetIsStaticMesh tool) eqn:Eb; [ | eexists; reflexivity].
  destruct (LightmapUVActions tool) as [actions | ] eqn:Ea;
    [ | eexists; reflexivity].
  destruct (Component (Target tool)) as [[bs | ] | ] eqn:Ec;
    try (eexists; reflexivity).
  exfalso. apply Hl. repeat split; congruence.
Qed.

Lemma initialize_none (tool : Tool) :
  Initialize tool = None ->
  (GetNumUVChannels (Mesh (Target tool)) <= 0)%Z \/ LightmapStepFails tool.
Proof.
  unfold InitializeAttributeLists, ExtractAttribList. cbn [fst snd].
  destruct (Z.to_nat (GetNumUVChannels (Mesh (Target tool)))) as [ | k] eqn:En;
    [intros _; left; lia | ].
  cbn [seq map].
  destruct (bTargetIsStaticMesh tool) eqn:Eb; [ | discriminate].
  destruct (LightmapUVActions tool) as [actions | ] eqn:Ea; [ | discriminate].
  destruct (Component (Target tool)) as [[bs | ] | ] eqn:Ec;
    try discriminate.
  intros _. right. repeat split; congruence.
Qed.

(** The attributes of a set and the list extracted from it. *)
Lemma extract_of_attribute (s : FAttributesSetBase) (E : ElementType.t)
  (n : FName) :
  SortKeepsElements ->
  SetHasAttribute s n = true ->
  exists info, In info (fst (ExtractAttribList s E)) /\ Name info = n.
Proof.
  intros Hsort Hhas. unfold SetHasAttribute, FindAttribute in Hhas.
  destruct (find (fun e => NameEq (fst e) n) s) as [[m e] | ] eqn:Ef;
    [ | discriminate].
  apply find_some in Ef. destruct Ef as [Hin Heq]. simpl in Heq.
  apply NameEq_eq in Heq. subst m.
  eexists. split.
  - unfold ExtractAttribList. cbn [fst]. apply Hsort.
    apply (in_map (fun e => MkAttribInfo (fst e) E (AttribTypeOf (snd e))
                              (HasFlag AutoGenerated (Flags (snd e))))).
    exact Hin.
  - reflexivity.
Qed.

Lemma attribute_of_extract (s : FAttributesSetBase) (E : ElementType.t)
  (info : FAttributeEditorAttribInfo) :
  SortKeepsElements ->
  In info (fst (ExtractAttribList s E)) ->
  SetHasAttribute s (Name info) = true.
Proof.
  intros Hsort Hin. unfold ExtractAttribList in Hin. cbn [fst] in Hin.
  apply Hsort in Hin. apply in_map_iff in Hin.
  destruct Hin as ([m e] & <- & Hin). simpl.
  unfold SetHasAttribute, FindAttribute.
  destruct (find (fun e0 => NameEq (fst e0) m) s) eqn:Ef; [reflexivity | ].
  exfalso. apply (find_none _ _ Ef) in Hin. simpl in Hin.
  rewrite NameEq_refl in Hin. discriminate.
Qed.

Lemma listed_of_attribute (M : FMeshDescription) (E : ElementType.t)
  (n : FName) :
  SortKeepsElements ->
  E = ElementType.Vertex \/ E = ElementType.Polygon
  \/ E = ElementType.Triangle ->
  HasAttribute M E n = true ->
  IsReservedAttributeName n = false ->
  In (ToString n) (ListedNames M).
Proof.
  intros Hsort HE Hhas Hres. unfold HasAttribute in Hhas.
  destruct (extract_of_attribute _ E n Hsort Hhas) as (info & Hin & Hname).
  unfold ListedNames.
  rewrite <- Hname.
  apply (in_map (fun AttribInfo => ToString (Name AttribInfo))).
  apply filter_In. split; [ | rewrite Hname, Hres; reflexivity].
  rewrite !in_app_iff.
  destruct HE as [-> | [-> | ->]]; simpl in Hin; tauto.
Qed.

Lemma attribute_of_listed (M : FMeshDescription) (s : FString) :
  SortKeepsElements ->
  In s (ListedNames M) ->
  exists n,
    s = ToString n
    /\ IsReservedAttributeName n = false
    /\ (HasAttribute M ElementType.Vertex n = true
        \/ HasAttribute M ElementType.Polygon n = true
        \/ HasAttribute M ElementType.Triangle n = true).
Proof.
  intros Hsort Hin. unfold ListedNames in Hin.
  apply in_map_iff in Hin. destruct Hin as (info & <- & Hin).
  apply filter_In in Hin. destruct Hin as [Hin Hres].
  exists (Name info). split; [reflexivity | ].
  split; [destruct (IsReservedAttributeName (Name info));
          [discriminate | reflexivity] | ].
  rewrite !in_app_iff in Hin. unfold HasAttribute.
  destruct Hin as [Hin | [Hin | Hin]];
    apply (attribute_of_extract _ _ _ Hsort) in Hin; simpl; tauto.
Qed.

Lemma contains_in (l : list FString) (s : FString) :
  In s l -> Contains l s = true.
Proof.
  intro Hin. unfold Contains. apply existsb_exists.
  exists s. split; [exact Hin | apply FStringEquals_refl].
Qed.

(** X12. The polygons' attributes are offered for deletion but cannot be
    deleted.  When the polygons have an attribute of a name that is not
    reserved, [InitializeAttributeLists] puts the name in the list of
    [ModifyAttributeProps]; when no attribute of the vertices, the polygon
    groups or the triangles has that name, [DeleteAttribute] with the name
    selected shows the warning that the selected attribute cannot be
    deleted and changes nothing. *)
Theorem listed_polygon_attribute_is_not_deletable (n : FName)
  (tool tool' : Tool) :
  SortKeepsElements ->
  NameOfItsString ->
  let M := Mesh (Target tool) in
  IsReservedAttributeName n = false ->
  HasAttribute M ElementType.Polygon n = true ->
  HasAttribute M ElementType.Vertex n = false ->
  HasAttribute M ElementType.PolygonGroup n = false ->
  HasAttribute M ElementType.Triangle n = false ->
  Initialize tool = Some tool' ->
  In (ToString n) (AttributeNamesList (ModifyAttributeProps tool'))
  /\ DeleteAttribute (withAttribute (ToString n) tool')
     = (withAttribute (ToString n) tool',
        [EvDisplayMessage "Cannot delete the selected attribute"]).
Proof.
  intros Hsort Hname M Hres Hp Hv Hg Ht Hinit.
  apply initialize_inv in Hinit.
  destruct Hinit as (Htarget & _ & _ & _ & _ & Hlist & _).
  split.
  - rewrite Hlist. apply (listed_of_attribute M ElementType.Polygon);
      auto.
  - unfold DeleteAttribute. cbn [withAttribute ModifyAttributeProps Target
                                 Attribute].
    rewrite Hname, Htarget. fold M. rewrite Hres, Hv, Hg, Ht. reflexivity.
Qed.

(** X13. Requests do not queue: of the actions requested from an idle
    tool before its next tick only the first is kept, as the pending
    action; the rest are dropped and the tool is not changed otherwise. *)
Theorem request_action_first_wins (a : Action.t) (later : list Action.t)
  (tool : Tool) :
  PendingAction tool = Action.NoAction ->
  a <> Action.NoAction ->
  fold_left (fun t b => RequestAction b t) (a :: later) tool
  = withPendingAction a tool.
Proof.
  intros Hidle Ha. simpl. unfold RequestAction at 2. rewrite Hidle.
  assert (Hbusy : PendingAction (withPendingAction a tool) <> Action.NoAction)
    by exact Ha.
  generalize dependent (withPendingAction a tool). clear.
  induction later as [ | b later IH]; intros t Hbusy; [reflexivity | ].
  simpl. unfold RequestAction at 2.
  destruct (PendingAction t) eqn:Ep; try (apply IH; rewrite Ep; exact Hbusy).
  contradiction.
Qed.


(** X15. [InitializeAttributeLists] needs a UV channel: on a mesh without
    UV channels it indexes the empty list of the layer names and does not
    return; with at least one channel it fails to return only when the
    lightmap step cannot be made.  When it returns, the layer names are
    one for each channel and the first of them is the selected layer. *)
Theorem initialize_needs_uv_channel (tool : Tool) :
  let n := GetNumUVChannels (Mesh (Target tool)) in
  (Initialize tool = None <-> (n <= 0)%Z \/ LightmapStepFails tool)
  /\ forall tool',
       Initialize tool = Some tool' ->
       length (UVLayerNamesList (UVActions tool')) = Z.to_nat n
       /\ (0 < n)%Z
       /\ UVLayer (UVActions tool') = UVLayerName 0%Z
       /\ Contains (UVLayerNamesList (UVActions tool'))
                   (UVLayer (UVActions tool')) = true.
Proof.
  intro n. split; [split | ].
  - apply initialize_none.
  - intro H. destruct (Initialize tool) as [tool' | ] eqn:Ei;
      [ | reflexivity].
    exfalso. pose proof (initialize_inv _ _ Ei) as Hinv.
    destruct Hinv as (_ & _ & _ & _ & _ & _ & _ & Hn & _).
    destruct H as [H | (Hb & Ha & Hc)]; [fold n in Hn; lia | ].
    revert Ei. unfold InitializeAttributeLists, ExtractAttribList.
    cbn [fst snd].
    destruct (Z.to_nat (GetNumUVChannels (Mesh (Target tool))));
      [discriminate | ].
    cbn [seq map]. rewrite Hb, Hc.
    destruct (LightmapUVActions tool); [discriminate | contradiction].
  - intros tool' Ei. apply initialize_inv in Ei.
    destruct Ei as (_ & _ & _ & _ & _ & _ & _ & Hn & Hl & Hu).
    fold n in Hn, Hl. rewrite Hl, Hu, length_map, length_seq.
    repeat split; try assumption.
    apply contains_in.
    destruct (Z.to_nat n) eqn:En; [lia | ]. simpl. left. reflexivity.
Qed.

(** X16. After [InitializeAttributeLists] the selected attribute is the
    empty string or one of the names offered, and the names offered are
    the strings of exactly the names that are not reserved and that the
    vertices, the polygons or the triangles have an attribute of. *)
Theorem initialize_selection (tool tool' : Tool) :
  SortKeepsElements ->
  Initialize tool = Some tool' ->
  let M := Mesh (Target tool) in
  let names := AttributeNamesList (ModifyAttributeProps tool') in
  let selected := Attribute (ModifyAttributeProps tool') in
  (selected = EmptyString \/ Contains names selected = true)
  /\ (forall s,
        In s names ->
        exists n,
          s = ToString n
          /\ IsReservedAttributeName n = false
          /\ (HasAttribute M ElementType.Vertex n = true
              \/ HasAttribute M ElementType.Polygon n = true
              \/ HasAttribute M ElementType.Triangle n = true))
  /\ (forall n,
        IsReservedAttributeName n = false ->
        HasAttribute M ElementType.Vertex n = true
        \/ HasAttribute M ElementType.Polygon n = true
        \/ HasAttribute M ElementType.Triangle n = true ->
        In (ToString n) names).
Proof.
  intros Hsort Hinit M names selected. apply initialize_inv in Hinit.
  destruct Hinit as (_ & _ & _ & _ & _ & Hlist & Hsel & _).
  unfold names, selected. rewrite Hlist, Hsel. fold M. split; [ | split].
  - unfold SelectionAfter. fold M.
    destruct (find _ (ListedNames M)) as [s | ] eqn:Ef.
    + right. apply contains_in. apply find_some in Ef. exact (proj1 Ef).
    + destruct (Contains (ListedNames M) (Attribute (ModifyAttributeProps tool)))
        eqn:Ec; [right; exact Ec | left; reflexivity].
  - intros s Hin. apply attribute_of_listed; assumption.
  - intros n Hres [H | [H | H]].
    + apply (listed_of_attribute M ElementType.Vertex); auto.
    + apply (listed_of_attribute M ElementType.Polygon); auto.
    + apply (listed_of_attribute M ElementType.Triangle); auto.
Qed.

(** X17. Resetting the lightmap channels of a static mesh through a tick
    that returns sets the source channel to 0 and the destination channel
    to the number of UV channels of the mesh, which is at least 1: the
    destination is past the channels of the mesh, so the tool then takes
    the lightmap UV set for auto-generated; the mesh is not changed and
    the change of the settings is inside one undo transaction. *)
Theorem reset_lightmap_then_tick (tool tool' : Tool)
  (bs : FMeshBuildSettings) (actions : LightmapUVActionsProps)
  (fx : list ToolEvent) :
  PendingAction tool = Action.ResetLightmapUVChannels ->
  bTargetIsStaticMesh tool = true ->
  LightmapUVActions tool = Some actions ->
  Component (Target tool) = StaticMeshComponent (Some bs) ->
  Tick tool = Some (tool', fx) ->
  let n := GetNumUVChannels (Mesh (Target tool)) in
  (1 <= n)%Z
  /\ Target tool'
     = MkTarget (Mesh (Target tool))
         (StaticMeshComponent
            (Some (MkBuildSettings (bGenerateLightmapUVs bs) 0%Z n)))
  /\ LightmapUVActions tool'
     = Some (MkLightmapActions (bGenerateLightmapUVs bs) 0%Z n)
  /\ bHaveAutoGeneratedLightmapUVSet tool' = true
  /\ fx = [EvBeginUndoTransaction "Reset Lightmap UVs"; EvModify;
           EvPostEditChange; EmitAttributesChange; EvEndUndoTransaction].
Proof.
  intros Hp Hb Ha Hc H n. unfold OnTick in H. rewrite Hp in H.
  unfold ResetLightmapUVsChannels in H. rewrite Hc in H. fold n in H.
  cbn in H. unfold InitializeAttributeLists, ExtractAttribList in H.
  cbn in H. rewrite Hb, Ha in H. fold n in H.
  destruct (Z.to_nat n) as [ | k] eqn:En; [discriminate | ].
  assert (Hn : (1 <= n)%Z) by lia.
  cbn in H. rewrite (Z.max_l n 1) in H by lia.
  injection H as <- <-. cbn.
  rewrite Z.leb_refl. repeat split; assumption.
Qed.

(** The outcome of one of the actions on attributes and lightmaps: it
    refused, or it made its changes in one undo transaction. *)
Let Refused (tool : Tool) (r : Tool * list ToolEvent) : Prop :=
  fst r = tool /\ exists text, snd r = [EvDisplayMessage text].

Let Edited (tool : Tool) (r : Tool * list ToolEvent) : Prop :=
  Transaction (snd r)
  /\ bAttributeListsValid (fst r) = false
  /\ PendingAction (fst r) = PendingAction tool
  /\ forall mesh,
       In (EvCommitMeshDescriptionUpdate mesh) (snd r) ->
       mesh = Mesh (Target (fst r)).

Lemma committed_is_edited (text : string) (NewMesh : FMeshDescription)
  (tool : Tool) :
  Edited tool (Committed text NewMesh tool).
Proof.
  unfold Edited, Committed. cbn. repeat split.
  - exists text, [EvCommitMeshDescriptionUpdate NewMesh].
    split; [reflexivity | ]. constructor; [exact I | constructor].
  - intros mesh [H | [H | [H | [H | []]]]]; try discriminate.
    injection H as <-. reflexivity.
Qed.

Lemma add_new_attribute_outcome (E : ElementType.t) (T : AttribType.t)
  (n : FName) (tool : Tool) :
  Refused tool (AddNewAttribute E T n tool)
  \/ Edited tool (AddNewAttribute E T n tool).
Proof.
  unfold AddNewAttribute.
  destruct (IsNone n); [left; split; [ | eexists]; reflexivity | ].
  destruct (HasAttribute (Mesh (Target tool)) E n);
    [left; split; [ | eexists]; reflexivity | ].
  destruct T; simpl;
    try (left; split; [ | eexists]; reflexivity);
    right; apply committed_is_edited.
Qed.

Lemma lightmap_edit_is_edited (text : string) (c : UPrimitiveComponent)
  (edits : list ToolEvent) (tool : Tool) :
  Forall IsEdit edits ->
  (forall mesh, ~ In (EvCommitMeshDescriptionUpdate mesh) edits) ->
  Edited tool
    (withAttributeListsValid false (withComponent c tool),
     EvBeginUndoTransaction text
     :: edits ++ [EmitAttributesChange; EvEndUndoTransaction]).
Proof.
  intros He Hc. unfold Edited. cbn. repeat split.
  - exists text, edits. split; [reflexivity | exact He].
  - intros mesh [H | H]; [discriminate | ].
    apply in_app_iff in H. destruct H as [H | [H | [H | []]]];
      try discriminate.
    exfalso. exact (Hc mesh H).
Qed.

(** X18. Each of the actions on attributes and lightmap settings either
    refuses, showing one warning and changing nothing, or makes its
    changes in one undo transaction that it opens first and closes last,
    with the change record emitted before the end; it then marks the lists
    invalid, and a mesh it commits is the mesh its target has afterwards.
    None of them touches the pending action. *)
Theorem edits_are_transactions (f : Tool -> Tool * list ToolEvent)
  (tool : Tool) :
  In f [AddNewAttributeFromProps; AddNewWeightMap; AddNewGroupsLayer;
        DeleteAttribute; SetLightmapUVsEnabled true;
        SetLightmapUVsEnabled false;
        ResetLightmapUVsChannels GetNumUVChannels] ->
  (fst (f tool) = tool /\ exists text, snd (f tool) = [EvDisplayMessage text])
  \/ (Transaction (snd (f tool))
      /\ bAttributeListsValid (fst (f tool)) = false
      /\ PendingAction (fst (f tool)) = PendingAction tool
      /\ forall mesh,
           In (EvCommitMeshDescriptionUpdate mesh) (snd (f tool)) ->
           mesh = Mesh (Target (fst (f tool)))).
Proof.
  intro Hf.
  change (Refused tool (f tool) \/ Edited tool (f tool)).
  assert (Hedits : forall c : UPrimitiveComponent,
            Forall IsEdit
              (snd (match c with
                    | StaticMeshComponent (Some _) =>
                        (c, [EvModify; EvPostEditChange])
                    | _ => (c, [])
                    end))
            /\ forall mesh,
                 ~ In (EvCommitMeshDescriptionUpdate mesh)
                      (snd (match c with
                            | StaticMeshComponent (Some _) =>
                                (c, [EvModify; EvPostEditChange])
                            | _ => (c, [])
                            end))).
  { intros [[bs | ] | ]; simpl; split;
      repeat constructor; intros mesh H;
      repeat (destruct H as [H | H]; try discriminate); contradiction. }
  simpl in Hf.
  destruct Hf as [<- | [<- | [<- | [<- | [<- | [<- | [<- | []]]]]]]].
  - unfold AddNewAttributeFromProps.
    destruct (DataType (NewAttributeProps tool)) eqn:Et;
      try apply add_new_attribute_outcome.
    left. split; [ | eexists]; reflexivity.
  - apply add_new_attribute_outcome.
  - apply add_new_attribute_outcome.
  - unfold DeleteAttribute.
    destruct (IsReservedAttributeName _);
      [left; split; [ | eexists]; reflexivity | ].
    destruct (HasAttribute _ ElementType.Vertex _);
      [right; apply committed_is_edited | ].
    destruct (HasAttribute _ ElementType.PolygonGroup _);
      [right; apply committed_is_edited | ].
    destruct (HasAttribute _ ElementType.Triangle _);
      [right; apply committed_is_edited | ].
    left. split; [ | eexists]; reflexivity.
  - right. unfold SetLightmapUVsEnabled.
    destruct (Component (Target tool)) as [[bs | ] | ];
      apply lightmap_edit_is_edited; simpl;
      repeat constructor; intros mesh H;
      repeat (destruct H as [H | H]; try discriminate); contradiction.
  - right. unfold SetLightmapUVsEnabled.
    destruct (Component (Target tool)) as [[bs | ] | ];
      apply lightmap_edit_is_edited; simpl;
      repeat constructor; intros mesh H;
      repeat (destruct H as [H | H]; try discriminate); contradiction.
  - right. unfold ResetLightmapUVsChannels.
    destruct (Component (Target tool)) as [[bs | ] | ];
      apply lightmap_edit_is_edited; simpl;
      repeat constructor; intros mesh H;
      repeat (destruct H as [H | H]; try discriminate); contradiction.
Qed.

(** ** The attribute editor: adding and then deleting *)

Lemma find_the_one {A : Type} (f : A -> bool) (l : list A) (a : A) :
  (forall x, In x l -> f x = true -> x = a) ->
  In a l -> f a = true -> find f l = Some a.
Proof.
  intros Hall Hin Hfa. destruct (find f l) as [x | ] eqn:Ef.
  - apply find_some in Ef. destruct Ef as [Hx Hfx].
    rewrite (Hall x Hx Hfx). reflexivity.
  - apply (find_none _ _ Ef) in Hin. congruence.
Qed.

Lemma add_weight_map_result (tool : Tool) :
  let M := Mesh (Target tool) in
  let n := MakeName (NewName (NewAttributeProps tool)) in
  IsNone n = false ->
  HasAttribute M ElementType.Vertex n = false ->
  AddNewWeightMap tool
  = Committed "Add Attribute"
      (SetAttributeSetByType M ElementType.Vertex
         (RegisterAttribute n (MkEntry 1%Z (DefaultFloat 0) [Lerpable])
            (GetAttributeSetByType M ElementType.Vertex)))
      tool.
Proof.
  intros M n Hnone Hhas. unfold AddNewWeightMap, AddNewAttribute.
  fold n M. rewrite Hnone, Hhas. reflexivity.
Qed.

Lemma delete_vertex_result (tool : Tool) :
  let M := Mesh (Target tool) in
  let n := MakeName (Attribute (ModifyAttributeProps tool)) in
  IsReservedAttributeName n = false ->
  HasAttribute M ElementType.Vertex n = true ->
  DeleteAttribute tool
  = Committed "Remove Attribute"
      (SetAttributeSetByType M ElementType.Vertex
         (UnregisterAttribute n (GetAttributeSetByType M ElementType.Vertex)))
      tool.
Proof.
  intros M n Hres Hhas. unfold DeleteAttribute. fold n M.
  rewrite Hres, Hhas. reflexivity.
Qed.

(** A tick on a committed edit ends with the lists filled from the new
    mesh. *)
Lemma tick_after_commit (a : Action.t) (NewMesh : FMeshDescription)
  (tool t' : Tool) :
  Initialize
    (withPendingAction Action.NoAction
       (withAttributeListsValid false
          (withMesh NewMesh (withPendingAction a tool))))
  = Some t' ->
  Target t' = MkTarget NewMesh (Component (Target tool))
  /\ PendingAction t' = Action.NoAction
  /\ NewAttributeProps t' = NewAttributeProps tool
  /\ AttributeNamesList (ModifyAttributeProps t') = ListedNames NewMesh
  /\ Attribute (ModifyAttributeProps t')
     = SelectionAfter (withMesh NewMesh tool).
Proof.
  intro H. apply initialize_inv in H.
  destruct H as (Ht & _ & Hp & Hn & _ & Hl & Hs & _).
  repeat split; assumption.
Qed.

(** X19. Adding a weight map and deleting it again, through the ticks of
    the tool, gives back the attributes of the mesh.  From an idle tool
    whose list of names is current and whose new name is a name that is
    not none, not reserved and not the name of an attribute of the
    vertices, the polygons or the triangles: the tick after the request to
    add the weight map commits a mesh with the attribute on the vertices
    and selects the new name; the tick after the request to delete the
    attribute then commits a mesh with the same attributes as at the
    start. *)
Theorem add_weight_map_then_delete_restores (tool t1 t2 : Tool)
  (fx1 fx2 : list ToolEvent) :
  SortKeepsElements ->
  NameOfItsString ->
  StringsTellNamesApart ->
  let M := Mesh (Target tool) in
  let n := MakeName (NewName (NewAttributeProps tool)) in
  PendingAction tool = Action.NoAction ->
  AttributeNamesList (ModifyAttributeProps tool) = ListedNames M ->
  IsNone n = false ->
  IsReservedAttributeName n = false ->
  HasAttribute M ElementType.Vertex n = false ->
  HasAttribute M ElementType.Polygon n = false ->
  HasAttribute M ElementType.Triangle n = false ->
  Tick (RequestAction Action.AddWeightMapLayer tool) = Some (t1, fx1) ->
  Tick (RequestAction Action.DeleteAttribute t1) = Some (t2, fx2) ->
  Lookup (Mesh (Target t1)) ElementType.Vertex n
  = Some (MkEntry 1%Z (DefaultFloat 0) [Lerpable])
  /\ Attribute (ModifyAttributeProps t1) = ToString n
  /\ SameAttributes (Mesh (Target t2)) M.
Proof.
  intros Hsort Hname Hapart M n Hidle Hcurrent Hnone Hres Hv Hp Ht H1 H2.
  set (M1 := SetAttributeSetByType M ElementType.Vertex
               (RegisterAttribute n (MkEntry 1%Z (DefaultFloat 0) [Lerpable])
                  (GetAttributeSetByType M ElementType.Vertex))).
  assert (Hlook1 : forall E' n',
            Lookup M1 E' n'
            = if element_type_eq_dec E' ElementType.Vertex
              then if FName_eq_dec n' n
                   then Some (MkEntry 1%Z (DefaultFloat 0) [Lerpable])
                   else Lookup M E' n'
              else Lookup M E' n')
    by (intros; apply lookup_register).
  (* the first tick *)
  unfold RequestAction in H1. rewrite Hidle in H1.
  unfold OnTick in H1.
  cbn [PendingAction withPendingAction] in H1.
  rewrite (add_weight_map_result
             (withPendingAction Action.AddWeightMapLayer tool)) in H1
    by assumption.
  cbn [Target Mesh withPendingAction NewAttributeProps NewName] in H1.
  fold M n M1 in H1.
  unfold Committed in H1. cbv beta iota in H1.
  change (bAttributeListsValid
            (withPendingAction Action.NoAction
               (withAttributeListsValid false
                  (withMesh M1
                     (withPendingAction Action.AddWeightMapLayer tool)))))
    with false in H1.
  cbn [negb] in H1.
  destruct (Initialize _) as [t1' | ] eqn:Ei1 in H1; [ | discriminate].
  injection H1 as -> _.
  apply (tick_after_commit Action.AddWeightMapLayer M1 tool) in Ei1.
  destruct Ei1 as (Htgt1 & Hidle1 & _ & _ & Hsel1).
  assert (Hmesh1 : Mesh (Target t1) = M1) by (rewrite Htgt1; reflexivity).
  assert (Hhas1 : HasAttribute M1 ElementType.Vertex n = true).
  { apply has_attribute_lookup. rewrite Hlook1.
    destruct (element_type_eq_dec ElementType.Vertex ElementType.Vertex);
      [ | contradiction].
    destruct (FName_eq_dec n n); [discriminate | contradiction]. }
  (* the new name is the one that was not offered before *)
  assert (Hold : Contains (ListedNames M) (ToString n) = false).
  { destruct (Contains (ListedNames M) (ToString n)) eqn:Ec;
      [ | reflexivity].
    exfalso. unfold Contains in Ec. apply existsb_exists in Ec.
    destruct Ec as (s & Hin & Heq).
    apply (attribute_of_listed M s Hsort) in Hin.
    destruct Hin as (m & -> & _ & Hm).
    apply Hapart in Heq. subst m.
    destruct Hm as [Hm | [Hm | Hm]]; congruence. }
  assert (Hselected : Attribute (ModifyAttributeProps t1) = ToString n).
  { rewrite Hsel1. unfold SelectionAfter.
    cbn [withMesh withTarget Target Mesh ModifyAttributeProps].
    rewrite Hcurrent. fold M.
    rewrite (find_the_one _ _ (ToString n)); [reflexivity | | | ].
    - intros s Hin Hnew.
      apply (attribute_of_listed M1 s Hsort) in Hin.
      destruct Hin as (m & -> & Hmres & Hm).
      destruct (FName_eq_dec m n) as [-> | Hmn]; [reflexivity | ].
      exfalso.
      assert (Hlisted : In (ToString m) (ListedNames M)).
      { assert (Hsame : forall E,
                  HasAttribute M1 E m = true -> HasAttribute M E m = true).
        { intros E HE. apply has_attribute_lookup.
          apply has_attribute_lookup in HE. rewrite Hlook1 in HE.
          destruct (element_type_eq_dec E ElementType.Vertex);
            [destruct (FName_eq_dec m n); [contradiction | exact HE]
            | exact HE]. }
        destruct Hm as [Hm | [Hm | Hm]]; apply Hsame in Hm.
        - apply (listed_of_attribute M ElementType.Vertex); auto.
        - apply (listed_of_attribute M ElementType.Polygon); auto.
        - apply (listed_of_attribute M ElementType.Triangle); auto. }
      apply contains_in in Hlisted. rewrite Hlisted in Hnew.
      discriminate.
    - apply (listed_of_attribute M1 ElementType.Vertex); auto.
    - rewrite Hold. reflexivity. }
  (* the second tick *)
  unfold RequestAction in H2. rewrite Hidle1 in H2.
  unfold OnTick in H2.
  cbn [PendingAction withPendingAction] in H2.
  assert (Hdel : DeleteAttribute
                   (withPendingAction Action.DeleteAttribute t1)
                 = Committed "Remove Attribute"
                     (SetAttributeSetByType M1 ElementType.Vertex
                        (UnregisterAttribute n
                           (GetAttributeSetByType M1 ElementType.Vertex)))
                     (withPendingAction Action.DeleteAttribute t1)).
  { pose proof (delete_vertex_result
                  (withPendingAction Action.DeleteAttribute t1)) as Hd.
    cbn [withPendingAction Target ModifyAttributeProps] in Hd.
    rewrite Hselected, Hname, Hmesh1 in Hd. apply Hd; assumption. }
  rewrite Hdel in H2.
  set (M2 := SetAttributeSetByType M1 ElementType.Vertex
               (UnregisterAttribute n
                  (GetAttributeSetByType M1 ElementType.Vertex))) in *.
  unfold Committed in H2. cbv beta iota in H2.
  change (bAttributeListsValid
            (withPendingAction Action.NoAction
               (withAttributeListsValid false
                  (withMesh M2
                     (withPendingAction Action.DeleteAttribute t1)))))
    with false in H2.
  cbn [negb] in H2.
  destruct (Initialize _) as [t2' | ] eqn:Ei2 in H2; [ | discriminate].
  injection H2 as -> _.
  apply (tick_after_commit Action.DeleteAttribute M2 t1) in Ei2.
  destruct Ei2 as (Htgt2 & _).
  split; [ | split].
  - rewrite Hmesh1, Hlook1.
    destruct (element_type_eq_dec ElementType.Vertex ElementType.Vertex);
      [ | contradiction].
    destruct (FName_eq_dec n n); [reflexivity | contradiction].
  - exact Hselected.
  - intros E' n'. rewrite Htgt2. cbn [Mesh]. unfold M2.
    rewrite lookup_unregister, Hlook1.
    destruct (element_type_eq_dec E' ElementType.Vertex) as [-> | HE];
      [ | reflexivity].
    destruct (FName_eq_dec n' n) as [-> | Hn]; [ | reflexivity].
    symmetry. apply has_attribute_false. exact Hv.
Qed.

(** ** The attribute editor: set-up and sessions *)

Abbreviation SetupTool := (Setup GetNumUVChannels).
Abbreviation UseOnce :=
  (UseTool GetNumUVChannels ClearNormals ClearUVs AddUVSet
           DeleteSelectedUVSet DuplicateSelectedUVSet).
Abbreviation Run :=
  (Session GetNumUVChannels ClearNormals ClearUVs AddUVSet
           DeleteSelectedUVSet DuplicateSelectedUVSet).

Lemma same_setting_refl (tool : Tool) : SameSetting tool tool.
Proof. repeat split; auto. Qed.

Lemma same_setting_trans (a b c : Tool) :
  SameSetting a b -> SameSetting b c -> SameSetting a c.
Proof.
  intros (H1 & H2 & H3) (K1 & K2 & K3). repeat split.
  - congruence.
  - intro H. apply H2, K2, H.
  - intro H. apply K2, H2, H.
  - congruence.
Qed.

Lemma same_setting_consistent (tool t : Tool) :
  SameSetting tool t -> Consistent tool -> Consistent t.
Proof.
  intros (H1 & H2 & _) Hc Hb Ho. rewrite H1 in Hb.
  apply (Hc Hb). apply H2, Ho.
Qed.

Lemma consistent_lightmap_step (tool : Tool) :
  Consistent tool -> ~ LightmapStepFails tool.
Proof. intros Hc (Hb & _ & Ho). exact (Hc Hb Ho). Qed.

Lemma set_other_keeps_instances (M : FMeshDescription)
  (E : ElementType.t) (s : FAttributesSetBase) :
  E <> ElementType.VertexInstance ->
  VertexInstanceAttributes (SetAttributeSetByType M E s)
  = VertexInstanceAttributes M.
Proof. intro HE. destruct E; try reflexivity. contradiction. Qed.

Lemma add_new_attribute_setting (E : ElementType.t) (T : AttribType.t)
  (n : FName) (tool : Tool) :
  E <> ElementType.VertexInstance ->
  SameSetting tool (fst (AddNewAttribute E T n tool)).
Proof.
  intro HE. unfold AddNewAttribute.
  destruct (IsNone n); [apply same_setting_refl | ].
  destruct (HasAttribute (Mesh (Target tool)) E n);
    [apply same_setting_refl | ].
  unfold AddAttribute.
  destruct T; cbn; try apply same_setting_refl;
    (split; [reflexivity | split; [reflexivity | ]]);
    apply set_other_keeps_instances; exact HE.
Qed.

Lemma delete_attribute_setting (tool : Tool) :
  SameSetting tool (fst (DeleteAttribute tool)).
Proof.
  unfold DeleteAttribute.
  destruct (IsReservedAttributeName _); [apply same_setting_refl | ].
  destruct (HasAttribute _ ElementType.Vertex _);
    [ | destruct (HasAttribute _ ElementType.PolygonGroup _);
        [ | destruct (HasAttribute _ ElementType.Triangle _) ] ];
    cbn; try apply same_setting_refl;
    (split; [reflexivity | split; reflexivity]).
Qed.

Lemma lightmap_enabled_setting (b : bool) (tool : Tool) :
  SameSetting tool (fst (SetLightmapUVsEnabled b tool)).
Proof.
  unfold SetLightmapUVsEnabled.
  destruct tool as [[M [[bs | ] | ]] ? ? ? ? ? ? ? ? ? ?]; cbn;
    repeat split; auto; discriminate.
Qed.

Lemma lightmap_reset_setting (tool : Tool) :
  SameSetting tool (fst (ResetLightmapUVsChannels GetNumUVChannels tool)).
Proof.
  unfold ResetLightmapUVsChannels.
  destruct tool as [[M [[bs | ] | ]] ? ? ? ? ? ? ? ? ? ?]; cbn;
    repeat split; auto; discriminate.
Qed.

(** The end of a tick, after the action made [t] of the tool. *)
Lemma tick_end (t : Tool) (fx : list ToolEvent) :
  Consistent t ->
  (0 < GetNumUVChannels (Mesh (Target t)))%Z ->
  exists t',
    (let tool := withPendingAction Action.NoAction t in
     if negb (bAttributeListsValid tool) then
       match Initialize tool with
       | Some tool => Some (tool, fx)
       | None => None
       end
     else Some (tool, fx))
    = Some (t', fx)
    /\ SameSetting t t'
    /\ PendingAction t' = Action.NoAction
    /\ bAttributeListsValid t' = true.
Proof.
  intros Hc Hn. cbv zeta.
  destruct (bAttributeListsValid (withPendingAction Action.NoAction t))
    eqn:Ev; cbn [negb].
  - eexists. split; [reflexivity | ].
    split; [repeat split; auto | split; [reflexivity | exact Ev]].
  - destruct (initialize_returns (withPendingAction Action.NoAction t))
      as [t' Ei]; [exact Hn | apply consistent_lightmap_step; exact Hc | ].
    rewrite Ei. exists t'. split; [reflexivity | ].
    apply initialize_inv in Ei.
    destruct Ei as (Ht & Hb & Hp & _ & Hv & _).
    repeat split; try assumption;
      try (rewrite Ht; reflexivity); rewrite Ht; auto.
Qed.

Lemma use_once (u : Use) (tool : Tool) :
  (forall M M',
     VertexInstanceAttributes M = VertexInstanceAttributes M' ->
     GetNumUVChannels M = GetNumUVChannels M') ->
  Consistent tool ->
  (0 < GetNumUVChannels (Mesh (Target tool)))%Z ->
  PendingAction tool = Action.NoAction ->
  KeepsInstanceAttributes u ->
  exists t' fx,
    UseOnce u tool = Some (t', fx)
    /\ SameSetting tool t'
    /\ PendingAction t' = Action.NoAction
    /\ bAttributeListsValid t' = true.
Proof.
  intros Hdep Hc Hn Hp Hk.
  set (edited :=
         MkTool (Target tool) (bTargetIsStaticMesh tool) (PendingAction tool)
           (bAttributeListsValid tool) (bHaveAutoGeneratedLightmapUVSet tool)
           (UVActions tool) (LightmapUVActions tool) (UseNewAttribute u)
           (MkModifyAttribute
              (AttributeNamesList (ModifyAttributeProps tool))
              (UseAttribute u))
           (CopyAttributeProps tool) (AttributeProps tool)).
  set (asked := withPendingAction (UseAction u) edited).
  assert (Hs0 : SameSetting tool asked) by (repeat split; auto).
  assert (Hreq : RequestAction (UseAction u) edited = asked)
    by (unfold RequestAction; cbn [PendingAction edited]; rewrite Hp;
        reflexivity).
  assert (Hstep : forall r : Tool * list ToolEvent,
            SameSetting asked (fst r) ->
            exists t' fx,
              (let '(tool, fx) := r in
               let tool := withPendingAction Action.NoAction tool in
               if negb (bAttributeListsValid tool) then
                 match Initialize tool with
                 | Some tool => Some (tool, fx)
                 | None => None
                 end
               else Some (tool, fx))
              = Some (t', fx)
              /\ SameSetting tool t'
              /\ PendingAction t' = Action.NoAction
              /\ bAttributeListsValid t' = true).
  { intros [t fx] Hs. cbn [fst] in Hs.
    pose proof (same_setting_trans _ _ _ Hs0 Hs) as Hs1.
    destruct (tick_end t fx) as (t' & E & Hs2 & Hp' & Hv').
    - apply (same_setting_consistent tool); assumption.
    - destruct Hs1 as (_ & _ & Hv). rewrite (Hdep _ _ Hv). exact Hn.
    - exists t', fx. split; [exact E | ].
      split; [exact (same_setting_trans _ _ _ Hs1 Hs2) | ].
      split; assumption. }
  unfold UseTool. fold edited. rewrite Hreq. unfold OnTick.
  change (PendingAction asked) with (UseAction u).
  unfold KeepsInstanceAttributes in Hk.
  destruct (UseAction u) eqn:Eu; try contradiction.
  - apply (Hstep (asked, [])). apply same_setting_refl.
  - apply (Hstep (AddNewAttributeFromProps asked)).
    unfold AddNewAttributeFromProps.
    destruct (DataType (NewAttributeProps asked));
      try (apply add_new_attribute_setting; exact Hk);
      apply same_setting_refl.
  - apply (Hstep (AddNewWeightMap asked)).
    apply add_new_attribute_setting. discriminate.
  - apply (Hstep (AddNewGroupsLayer asked)).
    apply add_new_attribute_setting. discriminate.
  - apply (Hstep (DeleteAttribute asked)). apply delete_attribute_setting.
  - apply (Hstep (SetLightmapUVsEnabled true asked)).
    apply lightmap_enabled_setting.
  - apply (Hstep (SetLightmapUVsEnabled false asked)).
    apply lightmap_enabled_setting.
  - apply (Hstep (ResetLightmapUVsChannels GetNumUVChannels asked)).
    apply lightmap_reset_setting.
  - apply (Hstep (asked, [])). apply same_setting_refl.
Qed.

(** X20. [Setup] on one target fails to return exactly when the mesh of
    the target has no UV channel.  When it returns, the target is as it
    was, [bTargetIsStaticMesh] tells whether the component of the target
    is a static mesh component, so that the lightmap step of
    [InitializeAttributeLists] can be made from then on, the lists are
    valid, the names offered are those of the mesh, and the last things
    done are to set the display name and to show the notification. *)
Theorem setup_needs_uv_channel (created : PropertySets) (tool : Tool) :
  let n := GetNumUVChannels (Mesh (Target tool)) in
  (SetupTool created tool = None <-> (n <= 0)%Z)
  /\ forall tool' fx,
       SetupTool created tool = Some (tool', fx) ->
       Target tool' = Target tool
       /\ (bTargetIsStaticMesh tool' = true
           <-> Component (Target tool) <> OtherComponent)
       /\ ~ LightmapStepFails tool'
       /\ bAttributeListsValid tool' = true
       /\ PendingAction tool' = PendingAction tool
       /\ NewAttributeProps tool' = CreatedNewAttributeProps created
       /\ AttributeNamesList (ModifyAttributeProps tool')
          = ListedNames (Mesh (Target tool))
       /\ exists sources,
            fx = sources
                 ++ [EvSetToolDisplayName "Edit Attributes";
                     EvDisplayNotification
                       "Inspect and Modify Attributes of a StaticMesh Asset"]
            /\ Forall (fun e => match e with
                                | EvAddToolPropertySource _
                                | EvSetToolPropertySourceEnabled _ _ => True
                                | _ => False
                                end) sources.
Proof.
  intro n. unfold Setup.
  set (bStatic := match Component (Target tool) with
                  | StaticMeshComponent _ => true
                  | OtherComponent => false
                  end).
  set (made := MkTool (Target tool) bStatic _ _ _ _ _ _ _ _ _).
  assert (Hc : Consistent made).
  { unfold Consistent, made, bStatic. cbn.
    destruct (Component (Target tool)); [discriminate | ].
    intro H. discriminate H. }
  split; [split | ].
  - destruct (Initialize made) as [t | ] eqn:Ei; [discriminate | ].
    intros _. apply initialize_none in Ei.
    destruct Ei as [Ei | Ei]; [exact Ei | ].
    exfalso. exact (consistent_lightmap_step _ Hc Ei).
  - intro Hn. destruct (Initialize made) as [t | ] eqn:Ei; [ | reflexivity].
    exfalso. apply initialize_inv in Ei.
    destruct Ei as (_ & _ & _ & _ & _ & _ & _ & Hpos & _).
    cbn in Hpos. fold n in Hpos. lia.
  - intros tool' fx H.
    destruct (Initialize made) as [t | ] eqn:Ei; [ | discriminate].
    injection H as <- <-. apply initialize_inv in Ei.
    destruct Ei as (Ht & Hb & Hp & Hnew & Hv & Hl & _).
    cbn in Ht, Hb, Hp, Hnew, Hl.
    split; [exact Ht | ]. split.
    { rewrite Hb. unfold bStatic.
      destruct (Component (Target tool)); split; congruence. }
    split.
    { apply consistent_lightmap_step. intros Hs Ho.
      rewrite Hb in Hs. rewrite Ht in Ho. unfold bStatic in Hs.
      rewrite Ho in Hs. discriminate Hs. }
    split; [exact Hv | ]. split; [exact Hp | ].
    split; [exact Hnew | ]. split; [exact Hl | ].
    exists ([EvAddToolPropertySource NormalsActionsSource;
             EvAddToolPropertySource UVActionsSource]
            ++ (if bStatic
                then [EvAddToolPropertySource LightmapUVActionsSource]
                else [])
            ++ [EvAddToolPropertySource NewAttributePropsSource;
                EvAddToolPropertySource ModifyAttributePropsSource;
                EvAddToolPropertySource CopyAttributePropsSource;
                EvSetToolPropertySourceEnabled CopyAttributePropsSource
                                               false;
                EvAddToolPropertySource AttributePropsSource]).
    split; destruct bStatic; cbn; [reflexivity | reflexivity | | ];
      repeat constructor.
Qed.

(** X21. A tool that [Setup] has set up does not fail in use.  When the
    number of UV channels is a matter of the attributes of the vertex
    instances only and the tool was constructed idle, every session of
    uses that add, delete or reset through the tool, and add no attribute
    to the vertex instances, returns: each tick finds a UV channel and the
    component it expects.  The session leaves the tool idle with valid
    lists, with the static mesh flag and the kind of component of the
    set-up, and the mesh with the number of UV channels it had. *)
Theorem session_after_setup_returns (created : PropertySets)
  (tool0 tool : Tool) (fx0 : list ToolEvent) (uses : list Use) :
  (forall M M',
     VertexInstanceAttributes M = VertexInstanceAttributes M' ->
     GetNumUVChannels M = GetNumUVChannels M') ->
  PendingAction tool0 = Action.NoAction ->
  SetupTool created tool0 = Some (tool, fx0) ->
  Forall KeepsInstanceAttributes uses ->
  exists tool' fx,
    Run uses tool = Some (tool', fx)
    /\ SameSetting tool tool'
    /\ GetNumUVChannels (Mesh (Target tool'))
       = GetNumUVChannels (Mesh (Target tool0))
    /\ PendingAction tool' = Action.NoAction
    /\ bAttributeListsValid tool' = true.
Proof.
  intros Hdep Hp0 Hset Huses.
  assert (Hstart : Consistent tool
                   /\ (0 < GetNumUVChannels (Mesh (Target tool)))%Z
                   /\ PendingAction tool = Action.NoAction
                   /\ bAttributeListsValid tool = true
                   /\ Target tool = Target tool0).
  { revert Hset. unfold Setup.
    set (bStatic := match Component (Target tool0) with
                    | StaticMeshComponent _ => true
                    | OtherComponent => false
                    end).
    set (made := MkTool (Target tool0) bStatic _ _ _ _ _ _ _ _ _).
    destruct (Initialize made) as [t | ] eqn:Ei; [ | discriminate].
    intro H. injection H as <- _. apply initialize_inv in Ei.
    destruct Ei as (Ht & Hb & Hp & _ & Hv & _ & _ & Hpos & _).
    cbn in Ht, Hb, Hp, Hpos.
    split; [ | split; [rewrite Ht; exact Hpos | ]].
    - intros Hs Ho. rewrite Hb in Hs. rewrite Ht in Ho.
      unfold bStatic in Hs. rewrite Ho in Hs. discriminate Hs.
    - split; [congruence | split; assumption]. }
  destruct Hstart as (Hc & Hn & Hp & Hv & Ht).
  rewrite <- Ht. clear Hset Hp0 Ht fx0 tool0 created.
  revert tool Hc Hn Hp Hv.
  induction Huses as [ | u uses Hu _ IH]; intros tool Hc Hn Hp Hv.
  - exists tool, []. repeat split; auto.
  - destruct (use_once u tool Hdep Hc Hn Hp Hu)
      as (t1 & fx1 & E1 & Hs1 & Hp1 & Hv1).
    destruct (IH t1) as (t2 & fx2 & E2 & Hs2 & Hn2 & Hp2 & Hv2).
    + apply (same_setting_consistent tool); assumption.
    + destruct Hs1 as (_ & _ & Hi). rewrite (Hdep _ _ Hi). exact Hn.
    + exact Hp1.
    + exact Hv1.
    + exists t2, (fx1 ++ fx2). cbn [Session]. rewrite E1, E2.
      split; [reflexivity | ].
      split; [exact (same_setting_trans _ _ _ Hs1 Hs2) | ].
      split; [ | split; assumption].
      rewrite Hn2. destruct Hs1 as (_ & _ & Hi). apply Hdep. exact Hi.
Qed.

End Facts.

(** *** The properties on the scenarios *)

#[local] Existing Instance EditorScenario.StringEngine.

Lemma insert_by_key_in {A : Type} (key : A -> string) (x y : A)
  (l : list A) :
  In x (EditorScenario.InsertByKey key y l) <-> x = y \/ In x l.
Proof.
  induction l as [ | z l IH]; simpl.
  - split; intros [H | H]; auto.
  - destruct (EditorScenario.LexicalLeb (key y) (key z)); simpl;
      [ | rewrite IH];
      intuition congruence.
Qed.

Lemma string_engine_sort :
  SortKeepsElements (engine := EditorScenario.StringEngine).
Proof.
  intros A key l x. simpl. unfold EditorScenario.SortByKey.
  induction l as [ | y l IH]; simpl; [reflexivity | ].
  rewrite insert_by_key_in, IH. intuition congruence.
Qed.

Lemma string_engine_names :
  NameOfItsString (engine := EditorScenario.StringEngine).
Proof. intro n. reflexivity. Qed.

Lemma string_engine_apart :
  StringsTellNamesApart (engine := EditorScenario.StringEngine).
Proof. intros a b H. apply String.eqb_eq. exact H. Qed.

Lemma add_attribute_rejected_witness :
  exists text,
    AddNewAttribute (engine := EditorScenario.StringEngine)
      ElementType.Vertex AttribType.Float "Weight"%string
      EditorScenario.ReadyTool
    = (EditorScenario.ReadyTool, [EvDisplayMessage text]).
Proof.
  apply add_attribute_rejected. right. left. reflexivity.
Defined.

Lemma add_attribute_committed_witness :
  exists e NewMesh,
    AddNewAttribute (engine := EditorScenario.StringEngine)
      ElementType.Triangle AttribType.Int32 "Group"%string
      EditorScenario.ReadyTool
    = Committed "Add Attribute" NewMesh EditorScenario.ReadyTool
    /\ Lookup (engine := EditorScenario.StringEngine) NewMesh
         ElementType.Triangle "Group"%string = Some e
    /\ Flags e = [].
Proof.
  destruct (add_attribute_committed (engine := EditorScenario.StringEngine)
              ElementType.Triangle AttribType.Int32 "Group"%string
              EditorScenario.ReadyTool)
    as (e & NewMesh & Hr & Hl & _ & _ & Hf & _).
  - reflexivity.
  - reflexivity.
  - discriminate.
  - discriminate.
  - exists e, NewMesh. repeat split; assumption.
Defined.

Lemma delete_removes_first_match_witness :
  exists NewMesh,
    DeleteAttribute (engine := EditorScenario.StringEngine)
      (EditorScenario.Selecting "Weight")
    = Committed "Remove Attribute" NewMesh
        (EditorScenario.Selecting "Weight")
    /\ Lookup (engine := EditorScenario.StringEngine) NewMesh
         ElementType.Vertex "Weight"%string = None.
Proof.
  destruct (delete_removes_first_match
              (engine := EditorScenario.StringEngine) ElementType.Vertex
              (EditorScenario.Selecting "Weight"))
    as (NewMesh & Hr & Hl & _).
  - reflexivity.
  - left. split; reflexivity.
  - exists NewMesh. split; assumption.
Defined.

Lemma delete_of_polygon_group_attribute_keeps_it_witness :
  DeleteAttribute (engine := EditorScenario.StringEngine)
    (EditorScenario.Selecting "Material")
  = Committed "Remove Attribute" EditorScenario.Quad
      (EditorScenario.Selecting "Material").
Proof.
  destruct (delete_of_polygon_group_attribute_keeps_it
              (engine := EditorScenario.StringEngine)
              (EditorScenario.Selecting "Material"))
    as (NewMesh & Hr & _ & _ & _ & _ & Hsame).
  - reflexivity.
  - reflexivity.
  - reflexivity.
  - rewrite Hr. rewrite (Hsame eq_refl). reflexivity.
Defined.

Lemma listed_polygon_attribute_is_not_deletable_witness :
  In ("Smoothing"%string : FString (MeshEngine := EditorScenario.StringEngine))
     (AttributeNamesList (ModifyAttributeProps EditorScenario.ReadyTool))
  /\ DeleteAttribute (engine := EditorScenario.StringEngine)
       (EditorScenario.Selecting "Smoothing")
     = (EditorScenario.Selecting "Smoothing",
        [EvDisplayMessage "Cannot delete the selected attribute"]).
Proof.
  apply (listed_polygon_attribute_is_not_deletable
           (engine := EditorScenario.StringEngine) EditorScenario.UVChannels
           "Smoothing"%string EditorScenario.QuadTool
           EditorScenario.ReadyTool string_engine_sort string_engine_names);
    reflexivity.
Defined.

Lemma request_action_first_wins_witness :
  fold_left (fun t b => RequestAction b t)
    [Action.AddWeightMapLayer; Action.DeleteAttribute; Action.ClearAllUVs]
    EditorScenario.ReadyTool
  = withPendingAction Action.AddWeightMapLayer EditorScenario.ReadyTool.
Proof.
  apply (request_action_first_wins (engine := EditorScenario.StringEngine)).
  - reflexivity.
  - discriminate.
Defined.


Lemma initialize_needs_uv_channel_witness :
  InitializeAttributeLists (engine := EditorScenario.StringEngine)
    EditorScenario.UVChannels EditorScenario.BareTool = None
  /\ length (UVLayerNamesList (UVActions EditorScenario.ReadyTool)) = 2%nat.
Proof.
  destruct (initialize_needs_uv_channel
              (engine := EditorScenario.StringEngine)
              EditorScenario.UVChannels EditorScenario.BareTool)
    as [Hnone _].
  destruct (initialize_needs_uv_channel
              (engine := EditorScenario.StringEngine)
              EditorScenario.UVChannels EditorScenario.QuadTool)
    as [_ Hsome].
  split.
  - apply Hnone. left. vm_compute. intro Hc. discriminate Hc.
  - destruct (Hsome EditorScenario.ReadyTool eq_refl) as [Hl _]. exact Hl.
Defined.

Lemma initialize_selection_witness :
  Contains (AttributeNamesList (ModifyAttributeProps EditorScenario.ReadyTool))
           (Attribute (ModifyAttributeProps EditorScenario.ReadyTool))
  = true
  /\ In ("Weight"%string : FString (MeshEngine := EditorScenario.StringEngine))
        (AttributeNamesList (ModifyAttributeProps EditorScenario.ReadyTool)).
Proof.
  destruct (initialize_selection (engine := EditorScenario.StringEngine)
              EditorScenario.UVChannels EditorScenario.QuadTool
              EditorScenario.ReadyTool string_engine_sort eq_refl)
    as (Hsel & _ & Hin).
  split.
  - destruct Hsel as [Hsel | Hsel]; [discriminate Hsel | exact Hsel].
  - apply (Hin "Weight"%string); [reflexivity | left; reflexivity].
Defined.

Lemma reset_lightmap_then_tick_witness :
  exists tool' fx,
    EditorScenario.Tick
      (RequestAction Action.ResetLightmapUVChannels EditorScenario.ReadyTool)
    = Some (tool', fx)
    /\ LightmapUVActions tool' = Some (MkLightmapActions true 0%Z 2%Z)
    /\ bHaveAutoGeneratedLightmapUVSet tool' = true.
Proof.
  assert (E : exists tool' fx,
            EditorScenario.Tick
              (RequestAction Action.ResetLightmapUVChannels
                 EditorScenario.ReadyTool)
            = Some (tool', fx))
    by (vm_compute; eexists; eexists; reflexivity).
  destruct E as (tool' & fx & E).
  destruct (reset_lightmap_then_tick (engine := EditorScenario.StringEngine)
              EditorScenario.UVChannels EditorScenario.NoEdit
              EditorScenario.NoEdit EditorScenario.NoEdit
              EditorScenario.NoEdit EditorScenario.NoEdit
              (RequestAction Action.ResetLightmapUVChannels
                 EditorScenario.ReadyTool)
              tool' (MkBuildSettings true 0%Z 1%Z)
              (MkLightmapActions true 0%Z 1%Z) fx
              ltac:(vm_compute; reflexivity) ltac:(vm_compute; reflexivity)
              ltac:(vm_compute; reflexivity) ltac:(vm_compute; reflexivity)
              E)
    as (_ & _ & Ha & Hb & _).
  exists tool', fx. repeat split; assumption.
Defined.

Lemma edits_are_transactions_witness :
  Transaction (snd (DeleteAttribute (engine := EditorScenario.StringEngine)
                      EditorScenario.ReadyTool))
  /\ bAttributeListsValid
       (fst (DeleteAttribute (engine := EditorScenario.StringEngine)
               EditorScenario.ReadyTool))
     = false.
Proof.
  assert (Hno : forall text,
            snd (DeleteAttribute (engine := EditorScenario.StringEngine)
                   EditorScenario.ReadyTool)
            <> [EvDisplayMessage text])
    by (intro text; vm_compute; discriminate).
  destruct (edits_are_transactions (engine := EditorScenario.StringEngine)
              EditorScenario.UVChannels DeleteAttribute
              EditorScenario.ReadyTool)
    as [[_ (text & Hm)] | (Ht & Hv & _)].
  - right. right. right. left. reflexivity.
  - exfalso. exact (Hno text Hm).
  - split; assumption.
Defined.

Lemma add_weight_map_then_delete_restores_witness :
  exists fx1 t2 fx2,
    EditorScenario.Tick
      (RequestAction Action.AddWeightMapLayer EditorScenario.ReadyTool)
    = Some (EditorScenario.MaskedTool, fx1)
    /\ EditorScenario.Tick
         (RequestAction Action.DeleteAttribute EditorScenario.MaskedTool)
       = Some (t2, fx2)
    /\ Attribute (ModifyAttributeProps EditorScenario.MaskedTool)
       = ("Mask"%string : FString (MeshEngine := EditorScenario.StringEngine))
    /\ SameAttributes (Mesh (Target t2)) EditorScenario.Quad.
Proof.
  assert (E1 : exists fx1,
            EditorScenario.Tick
              (RequestAction Action.AddWeightMapLayer
                 EditorScenario.ReadyTool)
            = Some (EditorScenario.MaskedTool, fx1))
    by (vm_compute; eexists; reflexivity).
  assert (E2 : exists t2 fx2,
            EditorScenario.Tick
              (RequestAction Action.DeleteAttribute
                 EditorScenario.MaskedTool)
            = Some (t2, fx2))
    by (vm_compute; eexists; eexists; reflexivity).
  destruct E1 as (fx1 & E1). destruct E2 as (t2 & fx2 & E2).
  destruct (add_weight_map_then_delete_restores
              (engine := EditorScenario.StringEngine)
              EditorScenario.UVChannels EditorScenario.NoEdit
              EditorScenario.NoEdit EditorScenario.NoEdit
              EditorScenario.NoEdit EditorScenario.NoEdit
              EditorScenario.ReadyTool EditorScenario.MaskedTool t2 fx1 fx2
              string_engine_sort string_engine_names string_engine_apart
              ltac:(vm_compute; reflexivity) ltac:(vm_compute; reflexivity)
              ltac:(vm_compute; reflexivity) ltac:(vm_compute; reflexivity)
              ltac:(vm_compute; reflexivity) ltac:(vm_compute; reflexivity)
              ltac:(vm_compute; reflexivity) E1 E2)
    as (_ & Hsel & Hsame).
  exists fx1, t2, fx2. repeat split; assumption.
Defined.

Lemma session_after_setup_returns_witness :
  exists tool' fx,
    Session EditorScenario.UVChannels EditorScenario.NoEdit
      EditorScenario.NoEdit EditorScenario.NoEdit EditorScenario.NoEdit
      EditorScenario.NoEdit EditorScenario.MaskSession
      EditorScenario.SetUpTool
    = Some (tool', fx)
    /\ EditorScenario.UVChannels (Mesh (Target tool')) = 2%Z
    /\ bAttributeListsValid tool' = true.
Proof.
  assert (E : exists fx0,
            Setup EditorScenario.UVChannels EditorScenario.CreatedSets
                  EditorScenario.QuadTool
            = Some (EditorScenario.SetUpTool, fx0))
    by (vm_compute; eexists; reflexivity).
  destruct E as (fx0 & E).
  destruct (session_after_setup_returns
              (engine := EditorScenario.StringEngine)
              EditorScenario.UVChannels EditorScenario.NoEdit
              EditorScenario.NoEdit EditorScenario.NoEdit
              EditorScenario.NoEdit EditorScenario.NoEdit
              EditorScenario.CreatedSets EditorScenario.QuadTool
              EditorScenario.SetUpTool fx0 EditorScenario.MaskSession)
    as (tool' & fx & Hrun & _ & Hn & _ & Hv).
  - intros M M' H. unfold EditorScenario.UVChannels. rewrite H.
    reflexivity.
  - reflexivity.
  - exact E.
  - unfold EditorScenario.MaskSession.
    repeat (apply Forall_cons; [cbn; try exact I; try discriminate | ]).
    apply Forall_nil.
  - exists tool', fx.
    split; [exact Hrun | split; [rewrite Hn; reflexivity | exact Hv]].
Defined.

End EditorFacts.
